(** * Camos AI Assistant: ingestion, vector store, retrieval pipeline and
      the community question board, embedded from the Python sources.

    Layout: [Py] holds the fragments of the Python runtime the sources
    rely on (exceptions, strings, paths, the file system); [Ingestor]
    follows [src/data_ingestor.py], [Pipeline] follows
    [src/rag_pipeline.py] and [src/utils.py], [App] follows the
    question board of [app.py] and [Shell] its chat tab, login page and
    ingestion button.  Third-party libraries (PyMuPDF,
    Tesseract, Camelot, LangChain, FAISS, Ollama, pandas) are not
    re-implemented: every call into them is a field of a class of
    external behaviours, so each statement holds for whatever those
    libraries do.  Console output ([print]) is not modelled, except
    where evaluating the printed expression can itself raise. *)

From Stdlib Require Import String Ascii ZArith List Bool Lia.
From stdpp Require Import base tactics option list strings gmap pretty.

Set Default Proof Using "Type".
Open Scope string_scope.
Open Scope list_scope.
Open Scope stdpp_scope.

(** ** Python runtime fragments *)
Module Py.

(** An exception object that is an instance of [Exception]: its class
    name and its [str()] rendering.  These are the exceptions that
    library calls raise and that [except Exception] catches. *)
Record exn := Exn { exc_class : string; exc_str : string }.

(** Outcome of evaluating an expression or call. *)
Inductive result (A : Type) : Type :=
| Ok (a : A)
| Raise (e : exn).
Global Arguments Ok {A} a.
Global Arguments Raise {A} e.

Global Instance result_ret : MRet result := λ A a, Ok a.
Global Instance result_bind : MBind result := λ A B f m,
  match m with
  | Ok a => f a
  | Raise e => Raise e
  end.

(** [try: body  except Exception as e: handler e]. *)
Definition try_except {A} (body : result A) (handler : exn → result A) : result A :=
  match body with
  | Ok a => Ok a
  | Raise e => handler e
  end.

Definition raised {A} (r : result A) : bool :=
  match r with
  | Ok _ => false
  | Raise _ => true
  end.

(** Code that reads and updates a store of type [S] and may raise; an
    exception leaves the updates made before it in place. *)
Definition stateful (S A : Type) : Type := S → result A * S.

Global Instance stateful_ret {S} : MRet (stateful S) := λ A a s, (Ok a, s).
Global Instance stateful_bind {S} : MBind (stateful S) := λ A B f m s,
  match m s with
  | (Ok a, s') => f a s'
  | (Raise e, s') => (Raise e, s')
  end.

(** The current content of the store. *)
Definition observe {S} : stateful S S := λ s, (Ok s, s).

(** A call whose outcome does not involve the store. *)
Definition pure_call {S A} (r : result A) : stateful S A := λ s, (r, s).

(** [try: body  except Exception as e: handler e], with a store. *)
Definition try_except_in {S A} (body : stateful S A) (handler : exn → stateful S A) : stateful S A :=
  λ s,
    match body s with
    | (Ok a, s') => (Ok a, s')
    | (Raise e, s') => handler e s'
    end.

(** Python values that appear in dictionaries of mixed content. *)
Inductive pyval :=
| VStr (s : string)
| VInt (n : Z)
| VObj (rendering : string).

(** [str(v)] as used by f-strings; an opaque object is identified with
    its rendering. *)
Definition py_str (v : pyval) : string :=
  match v with
  | VStr s => s
  | VInt n => pretty n
  | VObj r => r
  end.

Definition KeyError (key : string) : exn :=
  Exn "KeyError" ("'" +:+ key +:+ "'").

(** [d[key]] on a dict. *)
Definition getitem {V} (d : gmap string V) (key : string) : result V :=
  match d !! key with
  | Some v => Ok v
  | None => Raise (KeyError key)
  end.

(** [d.get(key, default)]. *)
Definition dict_get {V} (d : gmap string V) (key : string) (default : V) : V :=
  from_option id default (d !! key).

(** *** Strings.  A [string] is read as a sequence of code points
    below 256. *)
Definition chars (s : string) : list ascii := list_ascii_of_string s.
Definition of_chars (l : list ascii) : string := string_of_list_ascii l.

(** [s.endswith(suffix)] *)
Definition endswith (s suffix : string) : bool :=
  bool_decide (chars suffix `suffix_of` chars s).

(** [c.isspace()] on code points below 256. *)
Definition isspace (c : ascii) : bool :=
  let n := nat_of_ascii c in
  (Nat.leb 9 n && Nat.leb n 13) || (Nat.leb 28 n && Nat.leb n 32)
  || Nat.eqb n 133 || Nat.eqb n 160.

Fixpoint lstrip_chars (l : list ascii) : list ascii :=
  match l with
  | c :: l' => if isspace c then lstrip_chars l' else l
  | [] => []
  end.

(** [s.strip()] *)
Definition strip (s : string) : string :=
  of_chars (rev (lstrip_chars (rev (lstrip_chars (chars s))))).

(** Truth value of a [str]. *)
Definition truthy (s : string) : bool :=
  match s with
  | EmptyString => false
  | String _ _ => true
  end.

(** [x in xs] for a list of strings. *)
Definition str_in (x : string) (xs : list string) : bool :=
  bool_decide (x ∈ xs).

(** *** Paths (POSIX flavour of [os.path]). *)
Fixpoint basename_go (acc : list ascii) (l : list ascii) : list ascii :=
  match l with
  | [] => acc
  | c :: l' => if Ascii.eqb c "/" then basename_go [] l' else basename_go (acc ++ [c]) l'
  end.

(** [os.path.basename(p)]: what follows the last slash. *)
Definition basename (p : string) : string := of_chars (basename_go [] (chars p)).

(** [os.path.join(a, b)] *)
Definition join (a b : string) : string :=
  if bool_decide (chars "/" `prefix_of` chars b) then b
  else if negb (truthy a) || endswith a "/" then a +:+ b
  else a +:+ "/" +:+ b.

(** *** File system.  What [os.path.exists] and [os.listdir] observe:
    a path is absent, a regular file, or a directory with the names of
    its direct entries. *)
Inductive node :=
| File
| Dir (entries : list string).

Definition exists_ (fs : gmap string node) (path : string) : bool :=
  bool_decide (is_Some (fs !! path)).

Definition listdir (fs : gmap string node) (path : string) : result (list string) :=
  match fs !! path with
  | Some (Dir entries) => Ok entries
  | Some File => Raise (Exn "NotADirectoryError" ("[Errno 20] Not a directory: '" +:+ path +:+ "'"))
  | None => Raise (Exn "FileNotFoundError" ("[Errno 2] No such file or directory: '" +:+ path +:+ "'"))
  end.

End Py.
Import Py.

(** ** src/data_ingestor.py *)
Module Ingestor.

Definition newline : string := String (ascii_of_nat 10) "".

(** [langchain.docstore.document.Document] *)
Record Document := { page_content : string; metadata : gmap string pyval }.

(** The dict returned by [document.extract_image(xref)], with the two
    entries the code reads. *)
Record base_image := { image : string; ext : string }.

(** A table found by Camelot: [table.page] and the outcome of
    [table.df.to_markdown(index=False)]. *)
Record camelot_table := { page : nat; df_to_markdown : result string }.

(** [SentenceTransformerEmbeddings(model_name=..., model_kwargs=...)] *)
Record Embeddings := { model_name : pyval; model_kwargs : pyval }.

(** Modelled from the spec: the vector index of the FAISS library, which
    is not part of the repository.  Following the data model of the
    spec, an index is the container that associates each chunk record
    with its embedding vector, together with the embedding client it
    was built or loaded with. *)
Record FAISS (vector : Type) := {
  index : list (vector * Document);
  embedding_function : Embeddings;
}.
Global Arguments index {vector} _.
Global Arguments embedding_function {vector} _.

(** Calls into third-party libraries, each with the outcome it may
    have.  A PDF opened by PyMuPDF is seen as its pages; a page is the
    outcome of [load_page] followed by [get_images], and each listed
    image carries the outcome of [extract_image] (a dict lacking an
    entry raises [KeyError] at the same place, which is the same
    outcome).  Image bytes, decoded images and serialized data are
    strings. *)
Class Libraries := {
  (* Image.open(io.BytesIO(image_bytes)) *)
  Image_open : string → result string;
  (* pytesseract.image_to_string(image) *)
  pytesseract_image_to_string : string → result string;
  (* fitz.open(filepath) *)
  fitz_open : string → result (list (result (list (result base_image))));
  (* camelot.read_pdf(filepath, pages='all', flavor='stream', line_scale=40) *)
  camelot_read_pdf : string → result (list camelot_table);
  (* PyMuPDFLoader(pdf_file_path).load() *)
  PyMuPDFLoader_load : string → result (list Document);
  (* RecursiveCharacterTextSplitter(chunk_size=..., chunk_overlap=..., length_function=len) *)
  RecursiveCharacterTextSplitter : Z → Z → result unit;
  (* text_splitter.split_documents(combined_docs), for a splitter built
     with the two sizes *)
  split_documents : Z → Z → list Document → result (list Document);
  (* embedding vectors, and the embedding of one text by a client *)
  vector : Type;
  (* SentenceTransformerEmbeddings(model_name=..., model_kwargs=...) *)
  SentenceTransformerEmbeddings : pyval → pyval → result unit;
  embed : Embeddings → string → result vector;
  (* vectorstore.save_local(vector_store_path): outcome and disk after it *)
  save_local : FAISS vector → string → gmap string node → result unit * gmap string node;
  (* FAISS.load_local(vector_store_path, embeddings,
     allow_dangerous_deserialization=True) *)
  load_local : string → Embeddings → gmap string node → result (FAISS vector);
}.

(** A list that is appended to in place while the code runs and may be
    interrupted by an exception: what was appended so far, and the
    outcome. *)
Definition appending (A : Type) : Type := (list Document * result A)%type.

Global Instance appending_ret : MRet appending := λ A a, ([], Ok a).
Global Instance appending_bind : MBind appending := λ A B f m,
  match m.2 with
  | Ok a => (m.1 ++ (f a).1, (f a).2)
  | Raise e => (m.1, Raise e)
  end.

(** A call that does not touch the list. *)
Definition call {A} (r : result A) : appending A := ([], r).

(** [additional_docs.append(doc)] *)
Definition append (doc : Document) : appending unit := ([doc], Ok tt).

(** [for i, x in enumerate(xs): body] with [i] counted from [start]. *)
Fixpoint for_enumerate {A} (start : nat) (xs : list A) (body : nat → A → appending unit) : appending unit :=
  match xs with
  | [] => mret tt
  | x :: xs' => body start x ≫= λ _, for_enumerate (S start) xs' body
  end.

Section with_libraries.
Context `{Libraries}.

Definition extract_text_from_image_ocr (image_bytes : string) : result string :=
  try_except
    (image ← Image_open image_bytes;
     text ← pytesseract_image_to_string image;
     Ok text)
    (λ e, Ok "").

(** Step 1 of the extraction, innermost loop body: one listed image. *)
Definition ocr_image (filename_base : string) (page_num img_index : nat)
    (img : result base_image) : appending unit :=
  base_image ← call img;
  if str_in (ext base_image) ["png"; "jpeg"; "jpg"] then
    text_from_image ← call (extract_text_from_image_ocr (image base_image));
    if truthy (strip text_from_image) then
      append {|
        page_content := "Image content from page " +:+ pretty (page_num + 1)%nat
                        +:+ ":" +:+ newline +:+ text_from_image;
        metadata := {[ "source" := VStr filename_base;
                       "page" := VInt (Z.of_nat (page_num + 1));
                       "type" := VStr "image_ocr";
                       "image_index" := VInt (Z.of_nat (img_index + 1)) ]} |}
    else mret tt
  else mret tt.

(** Outer loop body: one page. *)
Definition ocr_page (filename_base : string) (page_num : nat)
    (page : result (list (result base_image))) : appending unit :=
  image_list ← call page;
  for_enumerate 0 image_list (ocr_image filename_base page_num).

Definition ocr_pages (filename_base : string)
    (document : list (result (list (result base_image)))) : appending unit :=
  for_enumerate 0 document (ocr_page filename_base).

(** Step 2 of the extraction, loop body: one Camelot table. *)
Definition table_record (filename_base : string) (i : nat) (table : camelot_table)
    : appending unit :=
  let table_markdown := "Table " +:+ pretty (i + 1)%nat +:+ " from page "
                        +:+ pretty (page table) +:+ ":" +:+ newline +:+ newline in
  markdown ← call (df_to_markdown table);
  append {|
    page_content := table_markdown +:+ markdown;
    metadata := {[ "source" := VStr filename_base;
                   "page" := VInt (Z.of_nat (page table));
                   "type" := VStr "table_data";
                   "table_index" := VInt (Z.of_nat (i + 1)) ]} |}.

Definition table_records (filename_base : string) (tables : list camelot_table) : appending unit :=
  for_enumerate 0 tables (table_record filename_base).

Definition UnboundLocalError (name : string) : exn :=
  Exn "UnboundLocalError" ("cannot access local variable '" +:+ name +:+ "' where it is not associated with a value").

(** The [try] block spans both steps and the function returns whatever
    was appended before an exception.  The handler formats
    [filename_base], which is assigned only after [fitz.open] has
    returned: when [fitz.open] raises, the handler itself raises
    [UnboundLocalError] (the message is that of Python 3.11 and later). *)
Definition extract_additional_content_from_pdf (filepath : string) : result (list Document) :=
  match fitz_open filepath with
  | Raise e => Raise (UnboundLocalError "filename_base")
  | Ok document =>
    let filename_base := basename filepath in
    let body : appending unit :=
      ocr_pages filename_base document ≫= λ _,
      tables ← call (camelot_read_pdf filepath);
      table_records filename_base tables in
    Ok body.1
  end.

(** Body of the [try] block of the loop over the PDF files. *)
Definition process_pdf (chunk_size chunk_overlap : Z) (pdf_file_path : string) : result (list Document) :=
  docs ← PyMuPDFLoader_load pdf_file_path;
  additional_docs ← extract_additional_content_from_pdf pdf_file_path;
  let combined_docs := docs ++ additional_docs in
  chunked_docs ← split_documents chunk_size chunk_overlap combined_docs;
  Ok chunked_docs.

Definition load_and_process_camos_docs (fs : gmap string node)
    (pdf_dir : string) (chunk_size chunk_overlap : Z) : result (list Document) :=
  _ ← RecursiveCharacterTextSplitter chunk_size chunk_overlap;
  names ← listdir fs pdf_dir;
  let pdf_files := map (join pdf_dir) (List.filter (λ f, endswith f ".pdf") names) in
  Ok (foldl (λ all_documents pdf_file_path,
               match process_pdf chunk_size chunk_overlap pdf_file_path with
               | Ok chunked_docs => all_documents ++ chunked_docs
               | Raise e => all_documents
               end) [] pdf_files).

(** What one iteration of that loop adds to [all_documents]. *)
Definition chunks_of (chunk_size chunk_overlap : Z) (pdf_file_path : string) : list Document :=
  match process_pdf chunk_size chunk_overlap pdf_file_path with
  | Ok chunked_docs => chunked_docs
  | Raise e => []
  end.

(** Modelled from the spec: [FAISS.from_documents(documents, embeddings)]
    of the FAISS wrapper, which is not part of the repository.  It
    computes one embedding vector per record, in order, and builds the
    index in memory; a failing embedding call fails the construction. *)
Fixpoint embed_documents (embeddings : Embeddings) (documents : list Document)
    : result (list (vector * Document)) :=
  match documents with
  | [] => Ok []
  | d :: ds =>
    v ← embed embeddings (page_content d);
    rest ← embed_documents embeddings ds;
    Ok ((v, d) :: rest)
  end.

Definition from_documents (documents : list Document) (embeddings : Embeddings)
    : result (FAISS vector) :=
  entries ← embed_documents embeddings documents;
  Ok {| index := entries; embedding_function := embeddings |}.

Definition create_and_save_vector_store (documents : list Document)
    (embedding_model_name embedding_model_kwargs : pyval) (vector_store_path : string)
    : stateful (gmap string node) (option (FAISS vector)) :=
  match documents with
  | [] => mret None
  | _ :: _ =>
    _ ← pure_call (SentenceTransformerEmbeddings embedding_model_name embedding_model_kwargs);
    let embeddings := {| model_name := embedding_model_name; model_kwargs := embedding_model_kwargs |} in
    vectorstore ← pure_call (from_documents documents embeddings);
    _ ← save_local vectorstore vector_store_path;
    mret (Some vectorstore)
  end.

Definition load_vector_store (embedding_model_name embedding_model_kwargs : pyval)
    (vector_store_path : string) : stateful (gmap string node) (option (FAISS vector)) :=
  fs ← observe;
  if negb (exists_ fs vector_store_path) then mret None
  else
    _ ← pure_call (SentenceTransformerEmbeddings embedding_model_name embedding_model_kwargs);
    let embeddings := {| model_name := embedding_model_name; model_kwargs := embedding_model_kwargs |} in
    vectorstore ← pure_call (load_local vector_store_path embeddings fs);
    mret (Some vectorstore).

End with_libraries.
End Ingestor.

(** ** src/utils.py and src/rag_pipeline.py *)
Module Pipeline.
Import Ingestor.

(** A parsed YAML document: a mapping, or a value of another Python
    type (named by that type, [NoneType] for an empty file). *)
Inductive yaml :=
| YMapping (d : gmap string pyval)
| YOther (type_name : string).

(** [Ollama(base_url=..., model=..., temperature=...)] *)
Record Ollama := { base_url : pyval; model : pyval; temperature : pyval }.

(** [vectorstore.as_retriever(search_kwargs={"k": k})] *)
Record Retriever (vector : Type) := { vectorstore_of : FAISS vector; k : nat }.
Global Arguments vectorstore_of {vector} _.
Global Arguments k {vector} _.

(** [RetrievalQA.from_chain_type(llm=..., chain_type=..., retriever=...,
    return_source_documents=..., chain_type_kwargs={"prompt": ...})] *)
Record RetrievalQA (vector : Type) := {
  chain_llm : Ollama;
  chain_type : string;
  chain_retriever : Retriever vector;
  return_source_documents : bool;
  prompt : pyval;
}.
Global Arguments chain_llm {vector} _.
Global Arguments chain_type {vector} _.
Global Arguments chain_retriever {vector} _.
Global Arguments return_source_documents {vector} _.
Global Arguments prompt {vector} _.

(** The calls that reach the retriever or the language model. *)
Inductive external_call :=
| chain_called (question : string)
| llm_invoked (prompt : string).

(** What the pipeline runs in: the disk, and the calls made so far to
    the retrieval chain and to the language model. *)
Record world := { disk : gmap string node; calls : list external_call }.

(** Calls into the YAML parser, the string formatter of the runtime,
    LangChain and the Ollama client.  The answer of the chain and of
    the model may depend on the calls made before. *)
Class Services `{Libraries} := {
  (* with open(filepath, 'r') as f: yaml.safe_load(f) *)
  yaml_safe_load : string → gmap string node → result yaml;
  (* template.format(name=value, ...) on a str *)
  str_format : string → list (string * string) → result string;
  (* Ollama(base_url=..., model=..., temperature=...) *)
  Ollama_init : pyval → pyval → pyval → result unit;
  (* vectorstore.as_retriever(search_kwargs={"k": k}) *)
  as_retriever : FAISS vector → nat → result unit;
  (* PromptTemplate.from_template(template) *)
  PromptTemplate_from_template : pyval → result unit;
  (* RetrievalQA.from_chain_type(llm=..., chain_type="stuff", retriever=...,
     return_source_documents=True, chain_type_kwargs={"prompt": ...}) *)
  RetrievalQA_from_chain_type : Ollama → Retriever vector → pyval → result unit;
  (* qa_chain({"query": question}): retrieval, prompt filling and the
     model call, as one library call *)
  RetrievalQA_call : list external_call → RetrievalQA vector → string → result (gmap string pyval);
  (* llm.invoke(prompt) *)
  llm_invoke : list external_call → Ollama → string → result string;
}.

Section with_services.
Context `{Services}.

(** utils.py *)
Definition load_config (filepath : string) (fs : gmap string node) : result yaml :=
  if negb (exists_ fs filepath)
  then Raise (Exn "FileNotFoundError" ("Config file not found: " +:+ filepath))
  else yaml_safe_load filepath fs.

Definition load_prompt_templates (filepath : string) (fs : gmap string node) : result yaml :=
  if negb (exists_ fs filepath)
  then Raise (Exn "FileNotFoundError" ("Prompt templates file not found: " +:+ filepath))
  else yaml_safe_load filepath fs.

(** [y[key]] on a parsed YAML document. *)
Definition yaml_getitem (y : yaml) (key : string) : result pyval :=
  match y with
  | YMapping d => getitem d key
  | YOther t => Raise (Exn "TypeError" ("'" +:+ t +:+ "' object is not subscriptable"))
  end.

(** [v.format(...)] with keyword arguments: only a [str] has the
    method. *)
Definition format (v : pyval) (kwargs : list (string * string)) : result string :=
  match v with
  | VStr template => str_format template kwargs
  | VInt _ => Raise (Exn "AttributeError" "'int' object has no attribute 'format'")
  | VObj _ => Raise (Exn "AttributeError" "object has no attribute 'format'")
  end.

(** A configured value used as a path.  (An integer would be taken as a
    file descriptor by [os.path]; that use is not modelled.) *)
Definition as_path (v : pyval) : result string :=
  match v with
  | VStr s => Ok s
  | _ => Raise (Exn "TypeError" "expected str, bytes or os.PathLike object")
  end.

(** rag_pipeline.py *)
Record CamosRAGPipeline := {
  config : gmap string pyval;
  prompt_templates : yaml;
  embeddings : Embeddings;
  llm : Ollama;
  vectorstore : option (FAISS vector);
  retriever : option (Retriever vector);
  qa_chain : option (RetrievalQA vector);
}.

Definition on_disk {A} (m : stateful (gmap string node) A) : stateful world A :=
  λ w, let '(r, fs) := m (disk w) in (r, {| disk := fs; calls := calls w |}).

Definition _load_or_recreate_vector_store (config : gmap string pyval)
    : stateful (gmap string node) (option (FAISS vector)) :=
  vector_store_path ← pure_call (getitem config "vector_store_path" ≫= as_path);
  fs ← observe;
  if exists_ fs vector_store_path then
    names ← pure_call (listdir fs vector_store_path);
    if (0 <? length names)%nat then
      embedding_model_name ← pure_call (getitem config "embedding_model_name");
      embedding_model_kwargs ← pure_call (getitem config "embedding_model_kwargs");
      load_vector_store embedding_model_name embedding_model_kwargs vector_store_path
    else mret None
  else mret None.

Definition _initialize_qa_chain (prompt_templates : yaml) (llm : Ollama)
    (retriever : option (Retriever vector)) : result (option (RetrievalQA vector)) :=
  match retriever with
  | None => Ok None
  | Some retriever =>
    rag_template ← yaml_getitem prompt_templates "rag_template";
    _ ← PromptTemplate_from_template rag_template;
    _ ← RetrievalQA_from_chain_type llm retriever rag_template;
    Ok (Some {| chain_llm := llm; chain_type := "stuff"; chain_retriever := retriever;
                return_source_documents := true; prompt := rag_template |})
  end.

Definition __init__ (config : gmap string pyval) : stateful world CamosRAGPipeline :=
  prompt_templates ← on_disk (λ fs, (load_prompt_templates "config/prompt_templates.yaml" fs, fs));
  embedding_model_name ← pure_call (getitem config "embedding_model_name");
  embedding_model_kwargs ← pure_call (getitem config "embedding_model_kwargs");
  _ ← pure_call (SentenceTransformerEmbeddings embedding_model_name embedding_model_kwargs);
  let embeddings := {| model_name := embedding_model_name; model_kwargs := embedding_model_kwargs |} in
  ollama_base_url ← pure_call (getitem config "ollama_base_url");
  ollama_model_name ← pure_call (getitem config "ollama_model_name");
  ollama_temperature ← pure_call (getitem config "ollama_temperature");
  _ ← pure_call (Ollama_init ollama_base_url ollama_model_name ollama_temperature);
  let llm := {| base_url := ollama_base_url; model := ollama_model_name; temperature := ollama_temperature |} in
  vectorstore ← on_disk (_load_or_recreate_vector_store config);
  retriever ← pure_call
    match vectorstore with
    | Some vs => _ ← as_retriever vs 5; Ok (Some {| vectorstore_of := vs; k := 5 |})
    | None => Ok None
    end;
  qa_chain ← pure_call (_initialize_qa_chain prompt_templates llm retriever);
  mret {| config := config; prompt_templates := prompt_templates; embeddings := embeddings;
          llm := llm; vectorstore := vectorstore; retriever := retriever; qa_chain := qa_chain |}.

(** [self.qa_chain({"query": question})] *)
Definition call_chain (chain : RetrievalQA vector) (question : string)
    : stateful world (gmap string pyval) :=
  λ w, (RetrievalQA_call (calls w) chain question,
        {| disk := disk w; calls := calls w ++ [chain_called question] |}).

(** [self.llm.invoke(prompt)] *)
Definition invoke (llm : Ollama) (prompt : string) : stateful world string :=
  λ w, (llm_invoke (calls w) llm prompt,
        {| disk := disk w; calls := calls w ++ [llm_invoked prompt] |}).

Definition query_rag (self : CamosRAGPipeline) (question : string) : stateful world pyval :=
  match qa_chain self with
  | None => mret (VStr "RAG system not ready. Please ensure data has been ingested.")
  | Some chain =>
    try_except_in
      (result ← call_chain chain question;
       pure_call (getitem result "result"))
      (λ e,
       ollama_model_name ← pure_call (getitem (config self) "ollama_model_name");
       mret (VStr ("An error occurred during AI processing: " +:+ exc_str e
                   +:+ ". Please ensure Ollama server is running and the model '"
                   +:+ py_str ollama_model_name +:+ "' is pulled.")))
  end.

Definition debug_code (self : CamosRAGPipeline) (code_snippet error_message : string)
    : stateful world string :=
  debug_template ← pure_call (yaml_getitem (prompt_templates self) "debug_template");
  debug_prompt ← pure_call (format debug_template
                              [("code_snippet", code_snippet); ("error_message", error_message)]);
  try_except_in
    (invoke (llm self) debug_prompt)
    (λ e,
     ollama_model_name ← pure_call (getitem (config self) "ollama_model_name");
     mret ("An error occurred during code debugging: " +:+ exc_str e
           +:+ ". Please ensure Ollama server is running and the model '"
           +:+ py_str ollama_model_name +:+ "' is pulled.")).

End with_services.
End Pipeline.

(** ** app.py: access control and the question board (third tab) *)
Module App.

(** Streamlit runs the script from the top at every interaction, so
    [CAN_ANSWER_QUESTION] is computed anew from the session's user in
    every run, and at most one form is submitted per run.  A DataFrame
    read from a spreadsheet is the list of its rows, indexed by
    position: [pd.concat([new_row, df], ignore_index=True)] puts the
    new row in front and [df.drop(index)] removes the row at that
    position. *)

(** Rows of the two spreadsheets, with the columns the application
    writes. *)
Record faq := {
  faq_id : string;
  faq_question : string;
  faq_answer : string;
  faq_timestamp : Z;
  faq_created_by : string;
}.

Record pending := {
  pending_id : string;
  pending_question : string;
  pending_timestamp : Z;
  pending_asked_by : string;
}.

(** A spreadsheet file as [pandas] finds it: missing, present but
    raising [e] when read, or holding rows. *)
Inductive workbook (row : Type) :=
| absent
| unreadable (e : exn)
| sheet (rows : list row).
Global Arguments absent {row}.
Global Arguments unreadable {row} e.
Global Arguments sheet {row} rows.

(** The file and the exception that writing to it raises, if any (a
    refused write, such as a permission error, leaves the file as it
    was). *)
Record xlsx (row : Type) := { content : workbook row; write_error : option exn }.
Global Arguments content {row} _.
Global Arguments write_error {row} _.

(** Elements put on the page. *)
Inductive element :=
| st_success (body : string)
| st_error (body : string)
| st_info (body : string)
| st_warning (body : string)
| st_expander (question : string).

(** State of one run of the script: the two spreadsheet files, what
    is on the page so far, and the keys of the forms created so far. *)
Record board := {
  faq_xlsx : xlsx faq;
  pending_xlsx : xlsx pending;
  screen : list element;
  forms : list string;
}.

(** How a piece of the script ends: it goes on, it asks for a rerun
    ([st.rerun()] stops the run), or an exception escapes. *)
Inductive flow (A : Type) :=
| Next (a : A)
| Rerun
| Uncaught (e : exn).
Global Arguments Next {A} a.
Global Arguments Rerun {A}.
Global Arguments Uncaught {A} e.

Definition script (A : Type) : Type := board → flow A * board.

Global Instance script_ret : MRet script := λ A a b, (Next a, b).
Global Instance script_bind : MBind script := λ A B f m b,
  match m b with
  | (Next a, b') => f a b'
  | (Rerun, b') => (Rerun, b')
  | (Uncaught e, b') => (Uncaught e, b')
  end.

Definition st_rerun {A} : script A := λ b, (Rerun, b).

Definition uncaught {A} (r : result A) : script A := λ b,
  match r with
  | Ok a => (Next a, b)
  | Raise e => (Uncaught e, b)
  end.

Definition show (el : element) : script unit := λ b,
  (Next tt, {| faq_xlsx := faq_xlsx b; pending_xlsx := pending_xlsx b;
               screen := screen b ++ [el]; forms := forms b |}).

(** [with st.form(key):] two forms with one key are refused. *)
Definition st_form (key : string) : script unit := λ b,
  if bool_decide (key ∈ forms b)
  then (Uncaught (Exn "StreamlitAPIException"
                    ("There are multiple identical forms with key='" +:+ key +:+ "'")), b)
  else (Next tt, {| faq_xlsx := faq_xlsx b; pending_xlsx := pending_xlsx b;
                    screen := screen b; forms := forms b ++ [key] |}).

(** A spreadsheet path, with the file it designates on the board. *)
Record file_ref (row : Type) := {
  path : string;
  file_of : board → xlsx row;
  with_file : xlsx row → board → board;
}.
Global Arguments path {row} _.
Global Arguments file_of {row} _ _.
Global Arguments with_file {row} _ _ _.

Definition EXCEL_FAQ_FILE : file_ref faq := {|
  path := "data/faqs.xlsx";
  file_of := faq_xlsx;
  with_file := λ f b, {| faq_xlsx := f; pending_xlsx := pending_xlsx b;
                         screen := screen b; forms := forms b |};
|}.

Definition PENDING_QUESTIONS_FILE : file_ref pending := {|
  path := "data/pending_questions.xlsx";
  file_of := pending_xlsx;
  with_file := λ f b, {| faq_xlsx := faq_xlsx b; pending_xlsx := f;
                         screen := screen b; forms := forms b |};
|}.

Definition load_data_from_excel {row} (filepath : file_ref row) : script (list row) := λ b,
  match content (file_of filepath b) with
  | sheet df => (Next df, b)
  | unreadable e =>
    (_ ← show (st_warning ("Error loading " +:+ path filepath +:+ ": " +:+ exc_str e
                           +:+ ". Creating a new empty DataFrame."));
     mret []) b
  | absent => (Next [], b)
  end.

Definition save_data_to_excel {row} (df : list row) (filepath : file_ref row) : script bool := λ b,
  match write_error (file_of filepath b) with
  | None =>
    (Next true, with_file filepath {| content := sheet df; write_error := None |} b)
  | Some e =>
    (_ ← show (st_error ("Error saving to " +:+ path filepath +:+ ": " +:+ exc_str e));
     mret false) b
  end.

(** The rows a read of the file gives, when the read does not fail (a
    missing file reads as no rows). *)
Definition stored {row} (file : xlsx row) : option (list row) :=
  match content file with
  | sheet rows => Some rows
  | absent => Some []
  | unreadable _ => None
  end.

Definition EXPERIENCE_LEVELS : list string := ["0-2yr"; "3-5yr"; "6yr and above"].

Definition CAN_ANSWER_QUESTION (user_data : gmap string string) : bool :=
  str_in (dict_get user_data "experience_level" "") ["3-5yr"; "6yr and above"].

(** The form, if any, whose submit button started this run, with the
    text typed in it. *)
Inductive submission :=
| no_submission
| submit_question (text : string)
| submit_answer (form_key : string) (text : string).

(** What a run of the script takes from outside: the session's user,
    the submitted form, and the clock. *)
Record run := {
  user_data : gmap string string;
  submitted : submission;
  time_ns : Z;
  now : Z;
}.

(** [for index, row in df.iterrows(): body], on a frame indexed from
    [start]. *)
Fixpoint for_iterrows {row} (start : nat) (df : list row) (body : nat → row → script unit) : script unit :=
  match df with
  | [] => mret tt
  | r :: df' => _ ← body start r; for_iterrows (S start) df' body
  end.

(** "Submit a New Question" *)
Definition ask_question (r : run) : script unit :=
  _ ← st_form "ask_question_form";
  let '(submitted_q, new_question) :=
    match submitted r with
    | submit_question text => (true, text)
    | _ => (false, "")
    end in
  if submitted_q && truthy new_question then
    pending_df ← load_data_from_excel PENDING_QUESTIONS_FILE;
    name ← uncaught (getitem (user_data r) "name");
    let new_row := {| pending_id := pretty (time_ns r);
                      pending_question := strip new_question;
                      pending_timestamp := now r;
                      pending_asked_by := name |} in
    let pending_df := new_row :: pending_df in
    saved ← save_data_to_excel pending_df PENDING_QUESTIONS_FILE;
    if saved : bool then
      _ ← show (st_success "Your question has been submitted for review and will appear below.");
      st_rerun
    else mret tt
  else if submitted_q then show (st_error "Please enter a question.")
  else mret tt.

(** The answer form of one pending question. *)
Definition answer_form (r : run) (pending_df : list pending) (index : nat) (pending_q : pending)
    : script unit :=
  let key := "answer_form_" +:+ pending_id pending_q in
  _ ← st_form key;
  let '(submitted_a, answer) :=
    match submitted r with
    | submit_answer form_key text =>
      if bool_decide (form_key = key) then (true, text) else (false, "")
    | _ => (false, "")
    end in
  if submitted_a && truthy answer then
    faqs_df ← load_data_from_excel EXCEL_FAQ_FILE;
    name ← uncaught (getitem (user_data r) "name");
    let new_faq_row := {| faq_id := pending_id pending_q;
                          faq_question := pending_question pending_q;
                          faq_answer := strip answer;
                          faq_timestamp := now r;
                          faq_created_by := name |} in
    let faqs_df := new_faq_row :: faqs_df in
    _ ← save_data_to_excel faqs_df EXCEL_FAQ_FILE;
    let pending_df := delete index pending_df in
    _ ← save_data_to_excel pending_df PENDING_QUESTIONS_FILE;
    _ ← show (st_success "Answer submitted and added to FAQs!");
    st_rerun
  else if submitted_a then show (st_error "Please provide an answer.")
  else mret tt.

(** "Pending Questions" *)
Definition pending_questions (r : run) : script unit :=
  pending_df ← load_data_from_excel PENDING_QUESTIONS_FILE;
  match pending_df with
  | _ :: _ =>
    for_iterrows 0 pending_df (λ index pending_q,
      _ ← show (st_expander (pending_question pending_q));
      if CAN_ANSWER_QUESTION (user_data r)
      then answer_form r pending_df index pending_q
      else show (st_info "You must have 3+ years of experience to answer questions."))
  | [] => show (st_info "No pending questions at this time.")
  end.

(** The third tab of [show_main_app]. *)
Definition tab3 (r : run) : script unit :=
  _ ← ask_question r;
  pending_questions r.

End App.


(** ** app.py: the chat tab, the login page, the pipeline holder and the
       ingestion button *)
Module Shell.
Import Ingestor Pipeline App.

(** *** More of [str].  [c.lower()] on code points below 256: the
    letters A-Z and the capital letters of Latin-1 move up by 32. *)
Definition lower_char (c : ascii) : ascii :=
  let n := nat_of_ascii c in
  if (Nat.leb 65 n && Nat.leb n 90)
     || (Nat.leb 192 n && Nat.leb n 222 && negb (Nat.eqb n 215))
  then ascii_of_nat (n + 32)
  else c.

(** [s.lower()] *)
Definition lower (s : string) : string := of_chars (map lower_char (chars s)).

Fixpoint has_infix (needle l : list ascii) : bool :=
  bool_decide (needle `prefix_of` l)
  || match l with
     | [] => false
     | _ :: l' => has_infix needle l'
     end.

(** [needle in s] *)
Definition contains (s needle : string) : bool := has_infix (chars needle) (chars s).

(** *** The chat tab.  An entry of [st.session_state.messages]. *)
Record message := { role : string; message_content : pyval }.

(** What a chat turn works on: the message history of the session
    (absent before the first run), the error boxes put on the page, and
    the world of the pipeline.  Drawing the messages themselves
    ([st.chat_message], [st.markdown]) is not modelled. *)
Record chat := {
  messages : option (list message);
  boxes : list element;
  outside : world;
}.

Definition greeting : message :=
  {| role := "assistant"; message_content := VStr "Hello! How can I assist you with Camos today?" |}.

(** [st.session_state.messages.append({"role": ..., "content": ...})] *)
Definition say (role : string) (content : pyval) : stateful chat unit := λ c,
  match messages c with
  | Some history =>
    (Ok tt, {| messages := Some (history ++ [{| role := role; message_content := content |}]);
               boxes := boxes c; outside := outside c |})
  | None => (Raise (Exn "AttributeError" "st.session_state has no attribute 'messages'"), c)
  end.

Definition post (box : element) : stateful chat unit := λ c,
  (Ok tt, {| messages := messages c; boxes := boxes c ++ [box]; outside := outside c |}).

(** A pipeline method run from the chat tab. *)
Definition in_world {A} (m : stateful world A) : stateful chat A := λ c,
  let '(r, w) := m (outside c) in
  (r, {| messages := messages c; boxes := boxes c; outside := w |}).

Section with_services.
Context `{Services}.

(** [initialize_rag_pipeline_cached(config_data)]: the pipeline, or
    [None] with an error box when its construction raises. *)
Definition initialize_rag_pipeline_cached (config_data_for_cache : gmap string pyval)
    (w : world) : option CamosRAGPipeline * list element * world :=
  match __init__ config_data_for_cache w with
  | (Ok pipeline, w') => (Some pipeline, [], w')
  | (Raise e, w') =>
    (None,
     [st_error ("Failed to initialize RAG Pipeline: " +:+ exc_str e
                +:+ ". Please check Ollama server, model, and config.")],
     w')
  end.

(** The status box of the sidebar in [show_main_app]. *)
Definition sidebar_status (rag_pipeline : option CamosRAGPipeline)
    (config_data : gmap string pyval) : element :=
  match rag_pipeline with
  | Some _ => st_success "AI is ready! Ollama connected."
  | None =>
    st_error ("AI not ready. Check console for errors. Ensure Ollama server is running and the model "
              +:+ "('" +:+ py_str (dict_get config_data "ollama_model_name" (VStr "mistral")) +:+ "') is pulled. "
              +:+ "Also, ensure FAISS index is built by clicking 'Ingest/Rebuild FAISS Index'.")
  end.

(** The first tab of [show_main_app], for the text [st.chat_input]
    returned in this run, if any. *)
Definition tab1 (rag_pipeline : option CamosRAGPipeline) (config_data : gmap string pyval)
    (chat_input : option string) : stateful chat unit :=
  _ ← (λ c, (Ok tt,
             match messages c with
             | None => {| messages := Some [greeting]; boxes := boxes c; outside := outside c |}
             | Some _ => c
             end));
  match chat_input with
  | Some prompt =>
    if truthy prompt then
      _ ← say "user" (VStr prompt);
      match rag_pipeline with
      | Some rag_pipeline =>
        try_except_in
          (response ←
             (if contains (lower prompt) "error" && contains (lower prompt) "code"
              then
                text ← in_world (debug_code rag_pipeline
                                   "Please provide the code snippet you're working with."
                                   "Please provide the exact error message.");
                mret (VStr text)
              else in_world (query_rag rag_pipeline prompt));
           say "assistant" response)
          (λ e,
           let error_msg :=
             "An error occurred during AI processing: " +:+ exc_str e +:+ ". "
             +:+ "Please check the console for more details and ensure "
             +:+ "Ollama server is running with the model '"
             +:+ py_str (dict_get config_data "ollama_model_name" (VStr "mistral")) +:+ "'. "
             +:+ "Also, ensure the FAISS index is built." in
           _ ← post (st_error error_msg);
           say "assistant"
             (VStr "I apologize, an error occurred while processing your request. Please try again or check the server status."))
      | None =>
        _ ← post (st_error "RAG Pipeline is not initialized. Please check the sidebar for instructions to set up the AI.");
        say "assistant"
          (VStr "The AI is not ready yet. Please try again after the system is fully initialized.")
      end
    else mret tt
  | None => mret tt
  end.

End with_services.

(** *** The login page.  What the session keeps between runs, and what
    the login form holds when a run starts: the two text inputs, the
    option picked in the select box, whether "Log In" was pressed, and
    the clock. *)
Record session := { logged_in : bool; account : gmap string string }.

Record login_form := {
  entered_name : string;
  entered_email : string;
  selected_level : string;
  log_in_pressed : bool;
  pressed_at : Z;
}.

Definition show_login_page (form : login_form) (s : session)
    : flow unit * session * list element :=
  let name := entered_name form in
  let email := entered_email form in
  let experience_level := selected_level form in
  if log_in_pressed form then
    if truthy name && truthy email then
      (Rerun,
       {| logged_in := true;
          account := {[ "name" := name;
                        "email" := email;
                        "experience_level" := experience_level;
                        "user_id" := email +:+ "_" +:+ pretty (pressed_at form) ]} |},
       [st_success ("Welcome, " +:+ name +:+ "! You are now logged in.")])
    else (Next tt, s, [st_error "Name and Email ID are required."])
  else (Next tt, s, []).

(** *** The ingestion button.  The values [config_data.get(key, default)]
    gives for the six keys the function reads, for a configuration
    whose values have the types the callees take (paths are [str], the
    two sizes are [int]). *)
Record ingestion_settings := {
  cfg_vector_store_path : string;
  cfg_pdf_data_dir : string;
  cfg_chunk_size : Z;
  cfg_chunk_overlap : Z;
  cfg_embedding_model_name : pyval;
  cfg_embedding_model_kwargs : pyval;
}.

Definition as_str (v : pyval) : option string :=
  match v with
  | VStr s => Some s
  | _ => None
  end.

Definition as_int (v : pyval) : option Z :=
  match v with
  | VInt n => Some n
  | _ => None
  end.

Definition ingestion_settings_of (config_data : gmap string pyval) : option ingestion_settings :=
  vector_store_path ← as_str (dict_get config_data "vector_store_path" (VStr "data/faiss_index"));
  pdf_data_dir ← as_str (dict_get config_data "pdf_data_dir" (VStr "data/raw_pdfs"));
  chunk_size ← as_int (dict_get config_data "chunk_size" (VInt 500));
  chunk_overlap ← as_int (dict_get config_data "chunk_overlap" (VInt 50));
  Some {| cfg_vector_store_path := vector_store_path;
          cfg_pdf_data_dir := pdf_data_dir;
          cfg_chunk_size := chunk_size;
          cfg_chunk_overlap := chunk_overlap;
          cfg_embedding_model_name :=
            dict_get config_data "embedding_model_name" (VStr "sentence-transformers/all-MiniLM-L6-v2");
          cfg_embedding_model_kwargs :=
            dict_get config_data "embedding_model_kwargs" (VObj "{'device': 'cpu'}") |}.

(** What the button works on: the disk, the boxes put on the page, and
    whether [st.cache_resource.clear()] was called. *)
Record workshop := {
  disk_now : gmap string node;
  notices : list element;
  cache_cleared : bool;
}.

Definition working (A : Type) : Type := workshop → flow A * workshop.

Global Instance working_ret : MRet working := λ A a s, (Next a, s).
Global Instance working_bind : MBind working := λ A B f m s,
  match m s with
  | (Next a, s') => f a s'
  | (Rerun, s') => (Rerun, s')
  | (Uncaught e, s') => (Uncaught e, s')
  end.

Definition announce (box : element) : working unit := λ s,
  (Next tt, {| disk_now := disk_now s; notices := notices s ++ [box];
               cache_cleared := cache_cleared s |}).

(** A call that may change the disk; an exception it raises escapes. *)
Definition on_the_disk {A} (m : stateful (gmap string node) A) : working A := λ s,
  let '(r, fs) := m (disk_now s) in
  let s' := {| disk_now := fs; notices := notices s; cache_cleared := cache_cleared s |} in
  match r with
  | Ok a => (Next a, s')
  | Raise e => (Uncaught e, s')
  end.

(** [st.cache_resource.clear()] followed by [st.rerun()] *)
Definition clear_cache_and_rerun {A} : working A := λ s,
  (Rerun, {| disk_now := disk_now s; notices := notices s; cache_cleared := true |}).

Section ingestion_button.
Context `{Libraries}.

(** [os.makedirs(path, exist_ok=True)]: its outcome and the disk after
    it. *)
Variable makedirs : string → gmap string node → result unit * gmap string node.

Definition ingest_camos_data_to_faiss (rag_pipeline : option CamosRAGPipeline)
    (config_data : ingestion_settings) : working unit :=
  match rag_pipeline with
  | None => announce (st_error "RAG Pipeline not initialized. Cannot ingest data.")
  | Some _ =>
    _ ← announce (st_info "Starting Camos data ingestion into FAISS...");
    _ ← on_the_disk (makedirs (cfg_vector_store_path config_data));
    all_documents ← on_the_disk (λ fs,
      (load_and_process_camos_docs fs (cfg_pdf_data_dir config_data)
         (cfg_chunk_size config_data) (cfg_chunk_overlap config_data), fs));
    match all_documents with
    | [] => announce (st_warning "No documents were loaded or processed for ingestion.")
    | _ :: _ =>
      (vectorstore ← on_the_disk
         (create_and_save_vector_store all_documents
            (cfg_embedding_model_name config_data) (cfg_embedding_model_kwargs config_data)
            (cfg_vector_store_path config_data));
       match vectorstore with
       | Some _ =>
         (_ ← announce (st_success "Camos documentation successfully ingested into the FAISS knowledge base!");
          clear_cache_and_rerun) : working unit
       | None => announce (st_error "Failed to create/save vector store.")
       end) : working unit
    end
  end.

End ingestion_button.
End Shell.

(** ** A small concrete installation, used to run the definitions *)
Module Demo.
Import Ingestor Pipeline App.

Definition guide_page : Document :=
  {| page_content := "Camos basics"; metadata := {[ "source" := VStr "docs/guide.pdf"; "page" := VInt 0 ]} |}.

(** Two documents of the directory load ([guide.pdf] with two scanned
    images, one of which the OCR engine rejects, and [tables.pdf] with
    one table), one is corrupt; Camelot fails on [guide.pdf].  Outside
    the directory, [sealed.pdf] loads but PyMuPDF cannot open it again,
    and [torn.pdf] has an image that cannot be extracted. *)
Definition libraries : Libraries := {|
  Image_open := λ image_bytes, Ok image_bytes;
  pytesseract_image_to_string := λ image,
    if bool_decide (image = "smudge")
    then Raise (Exn "TesseractError" "(1, 'Error during processing.')")
    else Ok ("text of " +:+ image);
  fitz_open := λ filepath,
    if bool_decide (filepath = "docs/guide.pdf")
    then Ok [Ok [Ok {| image := "smudge"; ext := "png" |}; Ok {| image := "scan"; ext := "png" |}]]
    else if bool_decide (filepath = "docs/tables.pdf") then Ok [Ok []]
    else if bool_decide (filepath = "docs/torn.pdf")
    then Ok [Ok [Raise (Exn "ValueError" "bad xref")]]
    else Raise (Exn "FileDataError" "Failed to open file");
  camelot_read_pdf := λ filepath,
    if bool_decide (filepath = "docs/tables.pdf") || bool_decide (filepath = "docs/torn.pdf")
    then Ok [{| page := 1; df_to_markdown := Ok "| a | b |" |}]
    else Raise (Exn "PdfReadError" "EOF marker not found");
  PyMuPDFLoader_load := λ pdf_file_path,
    if bool_decide (pdf_file_path = "docs/guide.pdf")
       || bool_decide (pdf_file_path = "docs/sealed.pdf") then Ok [guide_page]
    else if bool_decide (pdf_file_path = "docs/tables.pdf")
            || bool_decide (pdf_file_path = "docs/torn.pdf") then Ok []
    else Raise (Exn "FileDataError" "Failed to open file");
  RecursiveCharacterTextSplitter := λ chunk_size chunk_overlap,
    if (chunk_size <? chunk_overlap)%Z
    then Raise (Exn "ValueError" "Got a larger chunk overlap than chunk size, should be smaller.")
    else Ok tt;
  split_documents := λ _ _ documents, Ok documents;
  vector := nat;
  SentenceTransformerEmbeddings := λ _ _, Ok tt;
  embed := λ _ text, Ok (String.length text);
  save_local := λ _ folder_path fs, (Ok tt, <[folder_path := Dir ["index.faiss"; "index.pkl"]]> fs);
  load_local := λ folder_path embeddings fs,
    match fs !! folder_path with
    | Some (Dir names) =>
      if bool_decide ("index.faiss" ∈ names)
      then Ok {| index := []; embedding_function := embeddings |}
      else Raise (Exn "RuntimeError" "could not open index.faiss for reading: No such file or directory")
    | _ => Raise (Exn "RuntimeError" "could not open index.faiss for reading: No such file or directory")
    end;
|}.

(** Replacement of plain [{name}] fields, with [{{] and [}}] for
    literal braces. *)
Fixpoint fill (kwargs : list (string * string)) (field : option (list ascii)) (l : list ascii)
    : result (list ascii) :=
  match l, field with
  | [], None => Ok []
  | [], Some _ => Raise (Exn "ValueError" "expected '}' before end of string")
  | c :: l', Some name =>
    if Ascii.eqb c "}" then
      match list_find (λ kv, kv.1 = of_chars name) kwargs with
      | Some (_, (_, value)) => rest ← fill kwargs None l'; Ok (chars value ++ rest)
      | None => Raise (KeyError (of_chars name))
      end
    else fill kwargs (Some (name ++ [c])) l'
  | c :: l', None =>
    if Ascii.eqb c "{" then
      match l' with
      | c' :: l'' =>
        if Ascii.eqb c' "{" then rest ← fill kwargs None l''; Ok (c :: rest)
        else fill kwargs (Some []) l'
      | [] => Raise (Exn "ValueError" "Single '{' encountered in format string")
      end
    else if Ascii.eqb c "}" then
      match l' with
      | c' :: l'' =>
        if Ascii.eqb c' "}" then rest ← fill kwargs None l''; Ok (c :: rest)
        else Raise (Exn "ValueError" "Single '}' encountered in format string")
      | [] => Raise (Exn "ValueError" "Single '}' encountered in format string")
      end
    else rest ← fill kwargs None l'; Ok (c :: rest)
  end.

Definition templates : gmap string pyval :=
  {[ "rag_template" := VStr "Context: {context} Question: {question}";
     "debug_template" := VStr "Code: {code_snippet} Error: {error_message}" ]}.

(** The model answers unless the prompt is empty; the chain answers
    unless the question is empty. *)
Definition services : @Services libraries := {|
  yaml_safe_load := λ _ _, Ok (YMapping templates);
  str_format := λ template kwargs,
    filled ← fill kwargs None (chars template); Ok (of_chars filled);
  Ollama_init := λ _ _ _, Ok tt;
  as_retriever := λ _ _, Ok tt;
  PromptTemplate_from_template := λ _, Ok tt;
  RetrievalQA_from_chain_type := λ _ _ _, Ok tt;
  RetrievalQA_call := λ _ _ question,
    if truthy question
    then Ok {[ "query" := VStr question; "result" := VStr "Use the CASE statement." ]}
    else Raise (Exn "ConnectionError" "Connection refused");
  llm_invoke := λ _ _ prompt,
    if truthy prompt then Ok "Check the loop bounds."
    else Raise (Exn "ConnectionError" "Connection refused");
|}.

Definition model_config : gmap string pyval :=
  {[ "embedding_model_name" := VStr "sentence-transformers/all-MiniLM-L6-v2";
     "embedding_model_kwargs" := VObj "{'device': 'cpu'}";
     "vector_store_path" := VStr "data/faiss_index";
     "ollama_base_url" := VStr "http://localhost:11434";
     "ollama_model_name" := VStr "mistral";
     "ollama_temperature" := VObj "0.1" ]}.

(** A disk without an index, and one with. *)
Definition fresh_disk : gmap string node :=
  {[ "config/prompt_templates.yaml" := File;
     "docs" := Dir ["guide.pdf"; "broken.pdf"; "NOTES.PDF"; "readme.txt"; "tables.pdf"; "old.pdf.bak"];
     "data/faiss_index" := Dir [] ]}.

Definition indexed_disk : gmap string node :=
  <["data/faiss_index" := Dir ["index.faiss"; "index.pkl"]]> fresh_disk.

Definition all_MiniLM : Embeddings :=
  {| model_name := VStr "sentence-transformers/all-MiniLM-L6-v2";
     model_kwargs := VObj "{'device': 'cpu'}" |}.

Definition mistral : Ollama :=
  {| base_url := VStr "http://localhost:11434"; model := VStr "mistral";
     temperature := VObj "0.1" |}.

Definition no_index : world := {| disk := fresh_disk; calls := [] |}.
Definition with_index : world := {| disk := indexed_disk; calls := [] |}.

(** The pipeline objects that construction yields in these two worlds. *)
Definition bare_pipeline : @CamosRAGPipeline libraries :=
  {| config := model_config; prompt_templates := YMapping templates;
     embeddings := all_MiniLM; llm := mistral;
     vectorstore := None; retriever := None; qa_chain := None |}.

Definition loaded_index : FAISS (@vector libraries) :=
  {| index := []; embedding_function := all_MiniLM |}.

Definition stuff_chain : RetrievalQA (@vector libraries) :=
  {| chain_llm := mistral; chain_type := "stuff";
     chain_retriever := {| vectorstore_of := loaded_index; k := 5 |};
     return_source_documents := true;
     prompt := VStr "Context: {context} Question: {question}" |}.

Definition ready_pipeline : @CamosRAGPipeline libraries :=
  {| config := model_config; prompt_templates := YMapping templates;
     embeddings := all_MiniLM; llm := mistral;
     vectorstore := Some loaded_index;
     retriever := Some {| vectorstore_of := loaded_index; k := 5 |};
     qa_chain := Some stuff_chain |}.

Definition senior : gmap string string :=
  {[ "name" := "Bea"; "email" := "bea@example.org"; "experience_level" := "3-5yr";
     "user_id" := "bea@example.org_1" ]}.

Definition junior : gmap string string :=
  {[ "name" := "Al"; "email" := "al@example.org"; "experience_level" := "0-2yr";
     "user_id" := "al@example.org_2" ]}.

Definition asked : list pending :=
  [ {| pending_id := "1700"; pending_question := "How do I loop?";
       pending_timestamp := 1700; pending_asked_by := "Al" |};
    {| pending_id := "1800"; pending_question := "What is CASE?";
       pending_timestamp := 1800; pending_asked_by := "Al" |} ].

Definition answered : list faq :=
  [ {| faq_id := "1600"; faq_question := "How do I start?"; faq_answer := "Open the editor.";
       faq_timestamp := 1650; faq_created_by := "Cy" |} ].

Definition start : board :=
  {| faq_xlsx := {| content := sheet answered; write_error := None |};
     pending_xlsx := {| content := sheet asked; write_error := None |};
     screen := []; forms := [] |}.

(** A pipeline whose templates file was empty. *)
Definition no_templates : @CamosRAGPipeline libraries :=
  {| config := model_config; prompt_templates := YOther "NoneType";
     embeddings := all_MiniLM; llm := mistral;
     vectorstore := None; retriever := None; qa_chain := None |}.

(** The board when the FAQ file may not be written. *)
Definition locked_faqs : board :=
  {| faq_xlsx := {| content := sheet answered;
                    write_error := Some (Exn "PermissionError" "[Errno 13] Permission denied: 'data/faqs.xlsx'") |};
     pending_xlsx := {| content := sheet asked; write_error := None |};
     screen := []; forms := [] |}.

(** Al asks a question. *)
Definition junior_asks : run :=
  {| user_data := junior; submitted := submit_question "  How do I read a file? ";
     time_ns := 1900; now := 1900 |}.

(** Bea answers the second pending question; Al tries the same. *)
Definition senior_answers : run :=
  {| user_data := senior; submitted := submit_answer "answer_form_1800" "Use CASE x OF";
     time_ns := 1900; now := 1900 |}.

Definition junior_tries : run :=
  {| user_data := junior; submitted := submit_answer "answer_form_1800" "Use CASE x OF";
     time_ns := 1900; now := 1900 |}.

(** A second installation, where the table extractor finds three
    tables in [tables.pdf], the second of which cannot be rendered, and
    where the embedding model rejects an empty text. *)
Definition second_libraries : Libraries := {|
  Image_open := @Image_open libraries;
  pytesseract_image_to_string := @pytesseract_image_to_string libraries;
  fitz_open := @fitz_open libraries;
  camelot_read_pdf := λ filepath,
    if bool_decide (filepath = "docs/tables.pdf")
    then Ok [{| page := 1; df_to_markdown := Ok "| a | b |" |};
             {| page := 2; df_to_markdown := Raise (Exn "ImportError" "Missing optional dependency 'tabulate'.") |};
             {| page := 3; df_to_markdown := Ok "| c | d |" |}]
    else Raise (Exn "PdfReadError" "EOF marker not found");
  PyMuPDFLoader_load := @PyMuPDFLoader_load libraries;
  RecursiveCharacterTextSplitter := @RecursiveCharacterTextSplitter libraries;
  split_documents := @split_documents libraries;
  vector := nat;
  SentenceTransformerEmbeddings := λ _ _, Ok tt;
  embed := λ _ text,
    if truthy text then Ok (String.length text)
    else Raise (Exn "ValueError" "empty text");
  save_local := @save_local libraries;
  load_local := @load_local libraries;
|}.

Definition blank_page : Document :=
  {| page_content := ""; metadata := {[ "source" := VStr "docs/guide.pdf"; "page" := VInt 1 ]} |}.

(** A session that opens the chat tab for the first time. *)
Definition first_visit : Shell.chat :=
  {| Shell.messages := None; Shell.boxes := []; Shell.outside := no_index |}.

(** Bea fills in the login form. *)
Definition bea_logs_in : Shell.login_form :=
  {| Shell.entered_name := "Bea"; Shell.entered_email := "bea@example.org";
     Shell.selected_level := "3-5yr"; Shell.log_in_pressed := true; Shell.pressed_at := 1 |}.

Definition logged_out : Shell.session := {| Shell.logged_in := false; Shell.account := ∅ |}.

(** Directories are created where they are missing. *)
Definition makedirs (path : string) (fs : gmap string node) : result unit * gmap string node :=
  (Ok tt, if exists_ fs path then fs else <[path := Dir []]> fs).

(** The settings of the ingestion button for [model_config], which
    names no source directory, and the same with the directory
    [docs]. *)
Definition default_settings : Shell.ingestion_settings :=
  {| Shell.cfg_vector_store_path := "data/faiss_index";
     Shell.cfg_pdf_data_dir := "data/raw_pdfs";
     Shell.cfg_chunk_size := 500;
     Shell.cfg_chunk_overlap := 50;
     Shell.cfg_embedding_model_name := VStr "sentence-transformers/all-MiniLM-L6-v2";
     Shell.cfg_embedding_model_kwargs := VObj "{'device': 'cpu'}" |}.

Definition docs_settings : Shell.ingestion_settings :=
  {| Shell.cfg_vector_store_path := "data/faiss_index";
     Shell.cfg_pdf_data_dir := "docs";
     Shell.cfg_chunk_size := 500;
     Shell.cfg_chunk_overlap := 50;
     Shell.cfg_embedding_model_name := VStr "sentence-transformers/all-MiniLM-L6-v2";
     Shell.cfg_embedding_model_kwargs := VObj "{'device': 'cpu'}" |}.

Definition before_ingestion : Shell.workshop :=
  {| Shell.disk_now := fresh_disk; Shell.notices := []; Shell.cache_cleared := false |}.

(** Bea submits an answer of two blanks, and opens the tab without
    submitting anything. *)
Definition senior_answers_blank : run :=
  {| user_data := senior; submitted := submit_answer "answer_form_1800" "  ";
     time_ns := 1900; now := 1900 |}.

Definition senior_looks : run :=
  {| user_data := senior; submitted := no_submission; time_ns := 1900; now := 1900 |}.

(** The board when the FAQ file is damaged. *)
Definition damaged_faqs : board :=
  {| faq_xlsx := {| content := unreadable (Exn "BadZipFile" "File is not a zip file");
                    write_error := None |};
     pending_xlsx := {| content := sheet asked; write_error := None |};
     screen := []; forms := [] |}.

(** A templates file that holds the retrieval template only, the
    services that read it, and the pipeline constructed from it. *)
Definition rag_template_only : gmap string pyval :=
  {[ "rag_template" := VStr "Context: {context} Question: {question}" ]}.

Definition services_rag_only : @Services libraries := {|
  yaml_safe_load := λ _ _, Ok (YMapping rag_template_only);
  str_format := @str_format libraries services;
  Ollama_init := @Ollama_init libraries services;
  as_retriever := @as_retriever libraries services;
  PromptTemplate_from_template := @PromptTemplate_from_template libraries services;
  RetrievalQA_from_chain_type := @RetrievalQA_from_chain_type libraries services;
  RetrievalQA_call := @RetrievalQA_call libraries services;
  llm_invoke := @llm_invoke libraries services;
|}.

Definition rag_only_pipeline : @CamosRAGPipeline libraries :=
  {| config := model_config; prompt_templates := YMapping rag_template_only;
     embeddings := all_MiniLM; llm := mistral;
     vectorstore := None; retriever := None; qa_chain := None |}.

End Demo.

(** * Properties *)
Import Ingestor Pipeline App.

(** ** Strings and loops *)
Section runtime_facts.

Lemma chars_app a b : chars (a +:+ b) = chars a ++ chars b.
Proof.
  unfold chars. induction a as [|c a IH]; simpl; [done|]. by rewrite IH.
Qed.

Lemma of_chars_chars s : of_chars (chars s) = s.
Proof. apply string_of_list_ascii_of_string. Qed.

Lemma chars_of_chars l : chars (of_chars l) = l.
Proof. apply list_ascii_of_string_of_list_ascii. Qed.

Lemma chars_inj a b : chars a = chars b → a = b.
Proof.
  intros E. rewrite <-(of_chars_chars a), <-(of_chars_chars b). by rewrite E.
Qed.

(** [endswith] holds exactly of the strings that are some stem followed
    by the suffix. *)
Lemma endswith_spec s suffix :
  endswith s suffix = true ↔ ∃ stem, s = stem +:+ suffix.
Proof.
  unfold endswith. rewrite bool_decide_eq_true. split.
  - intros [stem Hstem]. exists (of_chars stem). apply chars_inj.
    by rewrite chars_app, chars_of_chars.
  - intros [stem ->]. exists (chars stem). apply chars_app.
Qed.

(** The comparison is case sensitive. *)
Lemma endswith_upper_PDF stem : endswith (stem +:+ ".PDF") ".pdf" = false.
Proof.
  apply not_true_iff_false. rewrite endswith_spec. intros [stem' E].
  apply (f_equal chars) in E. rewrite !chars_app in E.
  apply app_inj_2 in E as [_ E]; [discriminate|done].
Qed.

Lemma strip_empty : strip "" = "".
Proof. reflexivity. Qed.

Lemma foldl_extend {A B} (f : A → list B) (acc : list B) (l : list A) :
  foldl (λ all x, all ++ f x) acc l = acc ++ flat_map f l.
Proof.
  revert acc. induction l as [|x l IH]; intros acc; simpl.
  - by rewrite app_nil_r.
  - by rewrite IH, app_assoc.
Qed.



(** A loop whose iterations never raise runs to its end. *)
Lemma for_enumerate_completes {A} (body : nat → A → appending unit) xs :
  (∀ i x, x ∈ xs → (body i x).2 = Ok tt) →
  ∀ i, (for_enumerate i xs body).2 = Ok tt.
Proof.
  induction xs as [|x xs IH]; intros Hbody i; simpl; [done|].
  unfold mbind, appending_bind.
  rewrite (Hbody i x) by constructor. simpl.
  apply IH. intros j y Hy. apply Hbody. by constructor.
Qed.

End runtime_facts.

(** ** Ingestion: which files are read, and what a failure costs *)
Section ingestion.
Context `{Libraries}.

Lemma extract_text_from_image_ocr_total image_bytes :
  ∃ text, extract_text_from_image_ocr image_bytes = Ok text.
Proof.
  unfold extract_text_from_image_ocr, try_except.
  destruct (Image_open image_bytes) as [img|e]; simpl; [|by eexists].
  destruct (pytesseract_image_to_string img); simpl; by eexists.
Qed.

Lemma extract_text_from_image_ocr_failure image_bytes :
  raised (Image_open image_bytes ≫= pytesseract_image_to_string) = true →
  extract_text_from_image_ocr image_bytes = Ok "".
Proof.
  unfold extract_text_from_image_ocr, try_except.
  destruct (Image_open image_bytes) as [img|e]; simpl; [|done].
  by destruct (pytesseract_image_to_string img).
Qed.

Lemma ocr_image_never_raises filename_base page_num img_index img :
  (ocr_image filename_base page_num img_index (Ok img)).2 = Ok tt.
Proof.
  unfold ocr_image. simpl. unfold mbind, appending_bind; simpl.
  destruct (str_in _ _); [|done].
  destruct (extract_text_from_image_ocr_total (image img)) as [text ->]. simpl.
  by destruct (truthy _).
Qed.


(** When every page loads and every listed image can be extracted, the
    OCR step runs to its end whatever the OCR engine does. *)
Lemma ocr_pages_completes filename_base document :
  Forall (λ page, ∃ image_list, page = Ok image_list
                    ∧ Forall (λ img, ∃ base_image, img = Ok base_image) image_list) document →
  (ocr_pages filename_base document).2 = Ok tt.
Proof.
  intros Hdoc. unfold ocr_pages. apply for_enumerate_completes.
  intros page_num page Hpage.
  rewrite Forall_forall in Hdoc. destruct (Hdoc _ Hpage) as (image_list & -> & Himgs).
  unfold ocr_page. simpl. unfold mbind, appending_bind; simpl.
  apply for_enumerate_completes. intros img_index img Himg.
  rewrite Forall_forall in Himgs. destruct (Himgs _ Himg) as [base_image ->].
  apply ocr_image_never_raises.
Qed.

Lemma load_and_process_camos_docs_eq fs pdf_dir chunk_size chunk_overlap names :
  RecursiveCharacterTextSplitter chunk_size chunk_overlap = Ok tt →
  listdir fs pdf_dir = Ok names →
  load_and_process_camos_docs fs pdf_dir chunk_size chunk_overlap
  = Ok (flat_map (chunks_of chunk_size chunk_overlap)
          (map (join pdf_dir) (List.filter (λ f, endswith f ".pdf") names))).
Proof.
  intros Hsplitter Hnames. unfold load_and_process_camos_docs.
  rewrite Hsplitter, Hnames. simpl. f_equal.
  rewrite <-(app_nil_l (flat_map _ _)), <-foldl_extend.
  generalize (@nil Document).
  induction (map _ _) as [|p ps IH]; intros acc; simpl; [done|].
  rewrite <-IH. f_equal. unfold chunks_of.
  destruct (process_pdf _ _ p); [done|by rewrite app_nil_r].
Qed.



(** X1. When [fitz.open] raises on a file whose page texts were loaded,
    the handler of the extraction raises in turn and the whole document is
    dropped, page texts included. *)
Lemma fitz_open_failure_drops_document chunk_size chunk_overlap pdf_file_path docs e :
  PyMuPDFLoader_load pdf_file_path = Ok docs →
  fitz_open pdf_file_path = Raise e →
  process_pdf chunk_size chunk_overlap pdf_file_path = Raise (UnboundLocalError "filename_base")
  ∧ chunks_of chunk_size chunk_overlap pdf_file_path = [].
Proof.
  intros Hdocs Hopen. unfold chunks_of, process_pdf, extract_additional_content_from_pdf.
  by rewrite Hdocs, Hopen.
Qed.

(** X2. When a page cannot be loaded or an image cannot be extracted,
    the extraction returns the OCR records made so far and Camelot is not
    consulted: the tables of the document yield no record. *)
Lemma image_failure_skips_tables pdf_file_path document e :
  fitz_open pdf_file_path = Ok document →
  (ocr_pages (basename pdf_file_path) document).2 = Raise e →
  extract_additional_content_from_pdf pdf_file_path
  = Ok (ocr_pages (basename pdf_file_path) document).1.
Proof.
  intros Hopen Hocr. unfold extract_additional_content_from_pdf. rewrite Hopen.
  unfold mbind at 1, appending_bind. by rewrite Hocr.
Qed.

(** X3. A directory without entries yields no record and no
    exception. *)
Lemma empty_directory_ingestion fs pdf_dir chunk_size chunk_overlap :
  RecursiveCharacterTextSplitter chunk_size chunk_overlap = Ok tt →
  fs !! pdf_dir = Some (Dir []) →
  load_and_process_camos_docs fs pdf_dir chunk_size chunk_overlap = Ok [].
Proof.
  intros Hsplitter Hdir.
  rewrite (load_and_process_camos_docs_eq _ _ _ _ []); [done|done|].
  unfold listdir. by rewrite Hdir.
Qed.

(** C10. Ingestion considers exactly the entries of the source
    directory whose names end in the lowercase suffix [.pdf]: the
    records returned are those contributed by these entries, taken in
    listing order under the directory; a name is selected exactly when
    it is listed and is some stem followed by [.pdf], so a name ending
    in [.PDF] is not; and any other content of the directory or of the
    rest of the file system (other names, subdirectories and what they
    hold) changes nothing to the records returned. *)
Theorem ingestion_reads_pdf_entries_only fs pdf_dir chunk_size chunk_overlap names :
  RecursiveCharacterTextSplitter chunk_size chunk_overlap = Ok tt →
  fs !! pdf_dir = Some (Dir names) →
  let selected := List.filter (λ f, endswith f ".pdf") names in
  load_and_process_camos_docs fs pdf_dir chunk_size chunk_overlap
  = Ok (flat_map (λ f, chunks_of chunk_size chunk_overlap (join pdf_dir f)) selected)
  ∧ (∀ f, f ∈ selected ↔ f ∈ names ∧ ∃ stem, f = stem +:+ ".pdf")
  ∧ (∀ stem, stem +:+ ".PDF" ∉ selected)
  ∧ (∀ fs' names',
       fs' !! pdf_dir = Some (Dir names') →
       List.filter (λ f, endswith f ".pdf") names' = selected →
       load_and_process_camos_docs fs' pdf_dir chunk_size chunk_overlap
       = load_and_process_camos_docs fs pdf_dir chunk_size chunk_overlap).
Proof.
  intros Hsplitter Hdir selected.
  assert (Hlist : ∀ fs' names', fs' !! pdf_dir = Some (Dir names') →
            listdir fs' pdf_dir = Ok names').
  { intros fs' names' E. unfold listdir. by rewrite E. }
  assert (Hselected : ∀ f, f ∈ selected ↔ f ∈ names ∧ ∃ stem, f = stem +:+ ".pdf").
  { intros f. unfold selected. rewrite !list_elem_of_In, filter_In.
    by rewrite endswith_spec. }
  split_and!.
  - rewrite (load_and_process_camos_docs_eq _ _ _ _ names) by auto.
    f_equal. fold selected. by rewrite flat_map_concat_map, map_map, <-flat_map_concat_map.
  - done.
  - intros stem [_ [stem' E]]%Hselected.
    pose proof (endswith_upper_PDF stem) as Hupper.
    apply not_true_iff_false in Hupper. apply Hupper, endswith_spec. eauto.
  - intros fs' names' Hdir' Hsame.
    rewrite (load_and_process_camos_docs_eq _ _ _ _ names') by auto.
    rewrite (load_and_process_camos_docs_eq _ _ _ _ names) by auto.
    by rewrite Hsame.
Qed.

End ingestion.


Lemma ingestion_reads_pdf_entries_only_witness :
  @RecursiveCharacterTextSplitter Demo.libraries 500 50 = Ok tt
  ∧ Demo.fresh_disk !! "docs"
    = Some (Dir ["guide.pdf"; "broken.pdf"; "NOTES.PDF"; "readme.txt"; "tables.pdf"; "old.pdf.bak"])
  ∧ load_and_process_camos_docs (H:=Demo.libraries) Demo.fresh_disk "docs" 500 50
    = Ok (flat_map (λ f, chunks_of (H:=Demo.libraries) 500 50 (join "docs" f))
            ["guide.pdf"; "broken.pdf"; "tables.pdf"]).
Proof.
  split_and!; [reflexivity | reflexivity |].
  exact (proj1 (ingestion_reads_pdf_entries_only (H:=Demo.libraries) Demo.fresh_disk "docs" 500 50
                  ["guide.pdf"; "broken.pdf"; "NOTES.PDF"; "readme.txt"; "tables.pdf"; "old.pdf.bak"]
                  eq_refl eq_refl)).
Defined.

Lemma fitz_open_failure_drops_document_witness :
  @PyMuPDFLoader_load Demo.libraries "docs/sealed.pdf" = Ok [Demo.guide_page]
  ∧ @fitz_open Demo.libraries "docs/sealed.pdf" = Raise (Exn "FileDataError" "Failed to open file")
  ∧ process_pdf (H:=Demo.libraries) 500 50 "docs/sealed.pdf"
    = Raise (UnboundLocalError "filename_base")
  ∧ chunks_of (H:=Demo.libraries) 500 50 "docs/sealed.pdf" = [].
Proof.
  split; [reflexivity|]. split; [reflexivity|].
  exact (fitz_open_failure_drops_document (H:=Demo.libraries) 500 50 "docs/sealed.pdf"
           [Demo.guide_page] (Exn "FileDataError" "Failed to open file") eq_refl eq_refl).
Defined.

Lemma image_failure_skips_tables_witness :
  @camelot_read_pdf Demo.libraries "docs/torn.pdf"
  = Ok [{| page := 1; df_to_markdown := Ok "| a | b |" |}]
  ∧ extract_additional_content_from_pdf (H:=Demo.libraries) "docs/torn.pdf" = Ok [].
Proof.
  split; [reflexivity|].
  exact (image_failure_skips_tables (H:=Demo.libraries) "docs/torn.pdf"
           [Ok [Raise (Exn "ValueError" "bad xref")]] (Exn "ValueError" "bad xref")
           eq_refl eq_refl).
Defined.

Lemma empty_directory_ingestion_witness :
  load_and_process_camos_docs (H:=Demo.libraries) {[ "docs" := Dir [] ]} "docs" 500 50 = Ok [].
Proof.
  exact (empty_directory_ingestion (H:=Demo.libraries) {[ "docs" := Dir [] ]} "docs" 500 50
           eq_refl eq_refl).
Defined.

(** ** The vector store: building and loading *)
Section vector_store.
Context `{Libraries}.

Lemma embed_documents_each embeddings documents vectors :
  Forall2 (λ d v, embed embeddings (page_content d) = Ok v) documents vectors →
  embed_documents embeddings documents = Ok (zip vectors documents).
Proof.
  induction 1 as [|d v documents vectors Hd _ IH]; simpl; [done|].
  by rewrite Hd, IH.
Qed.

Lemma exists__true fs path : exists_ fs path = true ↔ is_Some (fs !! path).
Proof. unfold exists_. apply bool_decide_eq_true. Qed.

Lemma exists__false fs path : exists_ fs path = false ↔ fs !! path = None.
Proof.
  unfold exists_. rewrite bool_decide_eq_false. symmetry. apply eq_None_not_Some.
Qed.

Lemma getitem_Some {V} (d : gmap string V) key v :
  d !! key = Some v → getitem d key = Ok v.
Proof. unfold getitem. by intros ->. Qed.

Lemma getitem_Ok {V} (d : gmap string V) key v :
  getitem d key = Ok v → d !! key = Some v.
Proof. unfold getitem. by destruct (d !! key); intros [= ->]. Qed.

Lemma load_vector_store_missing name kwargs path fs :
  fs !! path = None → load_vector_store name kwargs path fs = (Ok None, fs).
Proof.
  intros Hmissing%exists__false. unfold load_vector_store.
  unfold mbind, stateful_bind, observe. by rewrite Hmissing.
Qed.

Lemma load_vector_store_present name kwargs path fs :
  is_Some (fs !! path) →
  load_vector_store name kwargs path fs
  = (_ ← SentenceTransformerEmbeddings name kwargs;
     vectorstore ← load_local path {| model_name := name; model_kwargs := kwargs |} fs;
     Ok (Some vectorstore), fs).
Proof.
  intros Hpresent%exists__true. unfold load_vector_store.
  unfold mbind at 1, stateful_bind, observe. rewrite Hpresent. simpl.
  unfold mbind, stateful_bind, result_bind, pure_call, mret, stateful_ret.
  destruct (SentenceTransformerEmbeddings name kwargs); [|done].
  by destruct (load_local _ _ _).
Qed.

Lemma load_or_recreate_unfold config path fs :
  config !! "vector_store_path" = Some (VStr path) →
  _load_or_recreate_vector_store config fs
  = if exists_ fs path then
      match listdir fs path with
      | Ok names =>
        if (0 <? length names)%nat then
          match getitem config "embedding_model_name" with
          | Ok name =>
            match getitem config "embedding_model_kwargs" with
            | Ok kwargs => load_vector_store name kwargs path fs
            | Raise e => (Raise e, fs)
            end
          | Raise e => (Raise e, fs)
          end
        else (Ok None, fs)
      | Raise e => (Raise e, fs)
      end
    else (Ok None, fs).
Proof.
  intros Hpath. unfold _load_or_recreate_vector_store.
  unfold mbind at 1, stateful_bind, pure_call.
  rewrite (getitem_Some _ _ _ Hpath). simpl.
  unfold mbind at 1, stateful_bind, observe.
  destruct (exists_ fs path); [|done].
  unfold mbind at 1, stateful_bind.
  destruct (listdir fs path) as [names|]; [|done].
  destruct (0 <? length names)%nat; [|done].
  unfold mbind at 1, stateful_bind.
  destruct (getitem config "embedding_model_name"); [|done].
  unfold mbind at 1, stateful_bind.
  by destruct (getitem config "embedding_model_kwargs").
Qed.

(** C6. Building a vector store from an empty sequence of chunk records
    returns no index and leaves the disk as it was.  For a non-empty
    sequence, when the embedding model loads, each record's text is
    embedded and the index is saved, the call returns the index that
    pairs every record, in order, with the embedding of its text, and
    the disk is what saving that index to the target directory made of
    it. *)
Theorem create_and_save_vector_store_spec name kwargs path fs :
  create_and_save_vector_store [] name kwargs path fs = (Ok None, fs)
  ∧ ∀ documents vectors fs',
      let embeddings := {| model_name := name; model_kwargs := kwargs |} in
      let vectorstore := {| index := zip vectors documents; embedding_function := embeddings |} in
      documents ≠ [] →
      SentenceTransformerEmbeddings name kwargs = Ok tt →
      Forall2 (λ d v, embed embeddings (page_content d) = Ok v) documents vectors →
      save_local vectorstore path fs = (Ok tt, fs') →
      create_and_save_vector_store documents name kwargs path fs = (Ok (Some vectorstore), fs')
      ∧ length (index vectorstore) = length documents
      ∧ (index vectorstore).*2 = documents.
Proof.
  split; [done|].
  intros documents vectors fs' embeddings vectorstore Hne Hmodel Hembed Hsave.
  pose proof (Forall2_length _ _ _ Hembed) as Hlen.
  subst embeddings vectorstore. split_and!.
  - destruct documents as [|d documents]; [done|].
    unfold create_and_save_vector_store.
    unfold mbind, stateful_bind, pure_call. rewrite Hmodel.
    unfold from_documents. rewrite (embed_documents_each _ _ _ Hembed). simpl.
    by rewrite Hsave.
  - simpl. rewrite length_zip_with. lia.
  - simpl. apply snd_zip. lia.
Qed.

(** C3, as the code has it.  The emptiness check belongs to the
    pipeline: [_load_or_recreate_vector_store] returns no index, without
    raising and without touching the disk, when the configured
    directory does not exist or exists and is empty, and hands an
    existing non-empty directory to [load_vector_store]; an index it
    returns comes from an existing non-empty directory and is what
    deserialising that directory gave.  [load_vector_store] itself
    returns no index only for a directory that does not exist; for an
    existing one, empty or not, it loads the embedding model and
    deserialises. *)
Theorem vector_store_load_not_found name kwargs path fs config :
  (fs !! path = None → load_vector_store name kwargs path fs = (Ok None, fs))
  ∧ (is_Some (fs !! path) →
     load_vector_store name kwargs path fs
     = (_ ← SentenceTransformerEmbeddings name kwargs;
        vectorstore ← load_local path {| model_name := name; model_kwargs := kwargs |} fs;
        Ok (Some vectorstore), fs))
  ∧ (config !! "vector_store_path" = Some (VStr path) →
     (fs !! path = None ∨ fs !! path = Some (Dir []) →
      _load_or_recreate_vector_store config fs = (Ok None, fs))
     ∧ (∀ entry entries,
          fs !! path = Some (Dir (entry :: entries)) →
          config !! "embedding_model_name" = Some name →
          config !! "embedding_model_kwargs" = Some kwargs →
          _load_or_recreate_vector_store config fs = load_vector_store name kwargs path fs)
     ∧ (∀ vectorstore fs',
          _load_or_recreate_vector_store config fs = (Ok (Some vectorstore), fs') →
          fs' = fs
          ∧ (∃ entry entries, fs !! path = Some (Dir (entry :: entries)))
          ∧ ∃ embeddings, load_local path embeddings fs = Ok vectorstore)).
Proof.
  split_and!.
  - apply load_vector_store_missing.
  - apply load_vector_store_present.
  - intros Hpath. rewrite (load_or_recreate_unfold _ _ _ Hpath).
    split_and!.
    + intros [Hmissing|Hempty].
      * apply exists__false in Hmissing. by rewrite Hmissing.
      * assert (exists_ fs path = true) as -> by (apply exists__true; eauto).
        unfold listdir. by rewrite Hempty.
    + intros entry entries Hdir Hname Hkwargs.
      assert (exists_ fs path = true) as -> by (apply exists__true; eauto).
      unfold listdir. rewrite Hdir. simpl.
      by rewrite (getitem_Some _ _ _ Hname), (getitem_Some _ _ _ Hkwargs).
    + intros vectorstore fs'.
      destruct (exists_ fs path) eqn:Hexists; [|by intros [=]].
      unfold listdir.
      destruct (fs !! path) as [[|[|entry entries]]|] eqn:Hdir; simpl; try by intros [=].
      destruct (getitem config "embedding_model_name") as [name'|]; [|by intros [=]].
      destruct (getitem config "embedding_model_kwargs") as [kwargs'|]; [|by intros [=]].
      rewrite load_vector_store_present by eauto.
      destruct (SentenceTransformerEmbeddings name' kwargs'); simpl; [|by intros [=]].
      destruct (load_local path _ fs) as [v|] eqn:Hload; simpl; [|by intros [=]].
      intros [= -> ->]. eauto 10.
Qed.

End vector_store.

Lemma create_and_save_vector_store_spec_witness :
  [Demo.guide_page] ≠ []
  ∧ @SentenceTransformerEmbeddings Demo.libraries (VStr "all-MiniLM-L6-v2") (VObj "{'device': 'cpu'}") = Ok tt
  ∧ create_and_save_vector_store (H:=Demo.libraries) [Demo.guide_page]
      (VStr "all-MiniLM-L6-v2") (VObj "{'device': 'cpu'}") "data/faiss_index" Demo.fresh_disk
    = (Ok (Some {| index := [(12, Demo.guide_page)];
                   embedding_function := {| model_name := VStr "all-MiniLM-L6-v2";
                                            model_kwargs := VObj "{'device': 'cpu'}" |} |}),
       Demo.indexed_disk).
Proof.
  split_and!; [done | reflexivity |].
  refine (proj1 (proj2 (create_and_save_vector_store_spec (H:=Demo.libraries)
                          (VStr "all-MiniLM-L6-v2") (VObj "{'device': 'cpu'}")
                          "data/faiss_index" Demo.fresh_disk)
                   [Demo.guide_page] [12] Demo.indexed_disk _ eq_refl _ eq_refl)).
  - done.
  - repeat constructor.
Defined.

(** An existing but empty index directory makes [load_vector_store]
    raise: only its absence is reported as "not found". *)
Lemma load_vector_store_empty_directory :
  Demo.fresh_disk !! "data/faiss_index" = Some (Dir [])
  ∧ load_vector_store (H:=Demo.libraries) (VStr "all-MiniLM-L6-v2") (VObj "{'device': 'cpu'}")
      "data/faiss_index" Demo.fresh_disk
    = (Raise (Exn "RuntimeError" "could not open index.faiss for reading: No such file or directory"),
       Demo.fresh_disk).
Proof. split; reflexivity. Qed.

Lemma vector_store_load_not_found_witness :
  Demo.model_config !! "vector_store_path" = Some (VStr "data/faiss_index")
  ∧ Demo.fresh_disk !! "data/faiss_index" = Some (Dir [])
  ∧ _load_or_recreate_vector_store (H:=Demo.libraries) Demo.model_config Demo.fresh_disk
    = (Ok None, Demo.fresh_disk).
Proof.
  split_and!; [reflexivity | reflexivity |].
  refine (proj1 (proj2 (proj2 (vector_store_load_not_found (H:=Demo.libraries)
                                 (VStr "") (VStr "") "data/faiss_index"
                                 Demo.fresh_disk Demo.model_config)) eq_refl) _).
  right. reflexivity.
Defined.

(** ** The retrieval pipeline *)
Section pipeline.
Context `{Services}.

(** What a successful construction guarantees about the object. *)
Lemma init_invariant cfg w0 self w1 :
  __init__ cfg w0 = (Ok self, w1) →
  config self = cfg
  ∧ is_Some (cfg !! "ollama_model_name")
  ∧ (vectorstore self = None → qa_chain self = None)
  ∧ calls w1 = calls w0.
Proof.
  unfold __init__.
  unfold mbind, stateful_bind, pure_call, on_disk, mret, stateful_ret.
  intros E.
  repeat match type of E with
         | context [match ?x with _ => _ end] => destruct x eqn:?; simplify_eq/=
         end.
  split_and!.
  - done.
  - eauto using getitem_Ok.
  - intros ->. by simplify_eq/=.
  - destruct (_load_or_recreate_vector_store cfg (disk w0)). by simplify_eq/=.
Qed.

(** Where the configured index directory is missing or empty, the
    pipeline is constructed without an index. *)
Lemma init_without_index cfg w0 self w1 path :
  cfg !! "vector_store_path" = Some (VStr path) →
  disk w0 !! path = None ∨ disk w0 !! path = Some (Dir []) →
  __init__ cfg w0 = (Ok self, w1) →
  vectorstore self = None.
Proof.
  intros Hpath Hdir.
  assert (Hload : _load_or_recreate_vector_store cfg (disk w0) = (Ok None, disk w0)).
  { rewrite (load_or_recreate_unfold _ _ _ Hpath). destruct Hdir as [Hdir|Hdir].
    - apply exists__false in Hdir. by rewrite Hdir.
    - assert (exists_ (disk w0) path = true) as -> by (apply exists__true; eauto).
      unfold listdir. by rewrite Hdir. }
  unfold __init__.
  unfold mbind, stateful_bind, pure_call, on_disk, mret, stateful_ret.
  intros E.
  repeat match type of E with
         | context [match ?x with _ => _ end] => destruct x eqn:?; simplify_eq/=
         end.
  match goal with
  | Hstep : context [_load_or_recreate_vector_store] |- _ => rewrite Hload in Hstep
  end.
  by simplify_eq.
Qed.

(** C7. A pipeline constructed without a loaded vector index answers
    every question with the fixed not-ready message; the world is left
    as it was, so neither the retrieval chain nor the language model
    was called. *)
Theorem query_rag_not_ready cfg w0 self w1 question w :
  __init__ cfg w0 = (Ok self, w1) →
  vectorstore self = None →
  query_rag self question w
  = (Ok (VStr "RAG system not ready. Please ensure data has been ingested."), w).
Proof.
  intros Hinit Hnone.
  destruct (init_invariant _ _ _ _ Hinit) as (_ & _ & Hchain & _).
  unfold query_rag. by rewrite (Hchain Hnone).
Qed.

(** C1. For a constructed pipeline with a QA chain, [query_rag] returns
    a value for every question and never raises; the chain is called
    once.  If the chain returns a dict with a [result] entry, that
    entry is returned; if the call raises, or the dict has no [result]
    entry (a [KeyError] inside the same [try]), the returned string is
    the error message around the text of the caught exception and the
    configured model name. *)
Theorem query_rag_never_raises cfg w0 self w1 chain question w :
  __init__ cfg w0 = (Ok self, w1) →
  qa_chain self = Some chain →
  ∃ answer ollama_model_name,
    query_rag self question w
    = (Ok answer, {| disk := disk w; calls := calls w ++ [chain_called question] |})
    ∧ cfg !! "ollama_model_name" = Some ollama_model_name
    ∧ (∀ result text,
         RetrievalQA_call (calls w) chain question = Ok result →
         result !! "result" = Some text →
         answer = text)
    ∧ (∀ e,
         RetrievalQA_call (calls w) chain question = Raise e →
         answer = VStr ("An error occurred during AI processing: " +:+ exc_str e
                        +:+ ". Please ensure Ollama server is running and the model '"
                        +:+ py_str ollama_model_name +:+ "' is pulled."))
    ∧ (∀ result,
         RetrievalQA_call (calls w) chain question = Ok result →
         result !! "result" = None →
         answer = VStr ("An error occurred during AI processing: " +:+ exc_str (KeyError "result")
                        +:+ ". Please ensure Ollama server is running and the model '"
                        +:+ py_str ollama_model_name +:+ "' is pulled.")).
Proof.
  intros Hinit Hchain.
  destruct (init_invariant _ _ _ _ Hinit) as (Hcfg & [ollama_model_name Hmodel] & _ & _).
  unfold query_rag. rewrite Hchain, Hcfg.
  unfold try_except_in, call_chain, mbind, stateful_bind, pure_call, mret, stateful_ret.
  rewrite (getitem_Some _ _ _ Hmodel).
  destruct (RetrievalQA_call (calls w) chain question) as [result|e] eqn:Hcall.
  - unfold getitem at 1.
    destruct (result !! "result") as [text|] eqn:Htext;
      eexists _, ollama_model_name; (split; [reflexivity|]); split_and!;
      try done; intros; by simplify_eq.
  - eexists _, ollama_model_name. split; [reflexivity|].
    split_and!; try done; intros; by simplify_eq.
Qed.

(** C2. For every code snippet and error message of a constructed
    pipeline, [debug_code] does one of two things.  When the debug
    template is present and filling it with the two inputs gives a
    prompt, it calls the language model once with that prompt, makes no
    call to the retrieval chain, and does not raise: it returns the
    model's text, or, if the call raises, the error message around the
    text of the caught exception and the configured model name; the
    index plays no part, the same pipeline without index, retriever and
    chain behaves the same.  When the lookup of the template or its
    filling raises, which happens before the [try] block, that
    exception leaves [debug_code] and no call is made. *)
Theorem debug_code_failure_to_string cfg w0 self w1 code_snippet error_message w :
  __init__ cfg w0 = (Ok self, w1) →
  (∀ template debug_prompt,
     yaml_getitem (prompt_templates self) "debug_template" = Ok (VStr template) →
     str_format template [("code_snippet", code_snippet); ("error_message", error_message)]
     = Ok debug_prompt →
     ∃ reply ollama_model_name,
       debug_code self code_snippet error_message w
       = (Ok reply, {| disk := disk w; calls := calls w ++ [llm_invoked debug_prompt] |})
       ∧ cfg !! "ollama_model_name" = Some ollama_model_name
       ∧ (∀ text, llm_invoke (calls w) (llm self) debug_prompt = Ok text → reply = text)
       ∧ (∀ e,
            llm_invoke (calls w) (llm self) debug_prompt = Raise e →
            reply = "An error occurred during code debugging: " +:+ exc_str e
                    +:+ ". Please ensure Ollama server is running and the model '"
                    +:+ py_str ollama_model_name +:+ "' is pulled.")
       ∧ debug_code {| config := config self; prompt_templates := prompt_templates self;
                       embeddings := embeddings self; llm := llm self;
                       vectorstore := None; retriever := None; qa_chain := None |}
           code_snippet error_message w
         = debug_code self code_snippet error_message w)
  ∧ (∀ e,
       (yaml_getitem (prompt_templates self) "debug_template"
        ≫= λ debug_template,
             format debug_template
               [("code_snippet", code_snippet); ("error_message", error_message)])
       = Raise e →
       debug_code self code_snippet error_message w = (Raise e, w)).
Proof.
  intros Hinit.
  destruct (init_invariant _ _ _ _ Hinit) as (Hcfg & [ollama_model_name Hmodel] & _ & _).
  split.
  - intros template debug_prompt Htemplate Hformat.
    unfold debug_code. simpl. rewrite Htemplate, Hcfg.
    unfold try_except_in, invoke, mbind, stateful_bind, pure_call, mret, stateful_ret.
    simpl. rewrite Hformat, (getitem_Some _ _ _ Hmodel).
    destruct (llm_invoke (calls w) (llm self) debug_prompt) as [text|e] eqn:Hcall;
      eexists _, ollama_model_name; (split; [reflexivity|]);
      split_and!; try done; intros; by simplify_eq.
  - intros e. unfold debug_code, stateful_bind, pure_call.
    unfold mbind, stateful_bind.
    destruct (yaml_getitem _ _) as [debug_template|]; simpl; [|by intros [= ->]].
    by intros ->.
Qed.

(** X4. The template is looked up and filled before the [try] block:
    an exception raised there leaves [debug_code] as it is, with no call
    made. *)
Lemma debug_code_template_error self code_snippet error_message w e :
  (yaml_getitem (prompt_templates self) "debug_template"
   ≫= λ debug_template,
        format debug_template [("code_snippet", code_snippet); ("error_message", error_message)])
  = Raise e →
  debug_code self code_snippet error_message w = (Raise e, w).
Proof.
  unfold debug_code, stateful_bind, pure_call.
  unfold mbind, stateful_bind.
  destruct (yaml_getitem _ _) as [debug_template|]; simpl; [|by intros [= ->]].
  by intros ->.
Qed.

End pipeline.

Lemma query_rag_not_ready_witness :
  __init__ (H0:=Demo.services) Demo.model_config Demo.no_index
  = (Ok Demo.bare_pipeline, Demo.no_index)
  ∧ vectorstore Demo.bare_pipeline = None
  ∧ query_rag (H0:=Demo.services) Demo.bare_pipeline "How do I loop?" Demo.no_index
    = (Ok (VStr "RAG system not ready. Please ensure data has been ingested."), Demo.no_index).
Proof.
  split; [vm_compute; reflexivity|]. split; [reflexivity|].
  apply (query_rag_not_ready (H0:=Demo.services) Demo.model_config
           Demo.no_index Demo.bare_pipeline Demo.no_index);
    [vm_compute; reflexivity | reflexivity].
Defined.

Lemma query_rag_never_raises_witness :
  __init__ (H0:=Demo.services) Demo.model_config Demo.with_index
  = (Ok Demo.ready_pipeline, Demo.with_index)
  ∧ qa_chain Demo.ready_pipeline = Some Demo.stuff_chain
  ∧ ∃ answer ollama_model_name,
      query_rag (H0:=Demo.services) Demo.ready_pipeline "" Demo.with_index
      = (Ok answer, {| disk := Demo.indexed_disk; calls := [chain_called ""] |})
      ∧ Demo.model_config !! "ollama_model_name" = Some ollama_model_name
      ∧ answer = VStr "An error occurred during AI processing: Connection refused. Please ensure Ollama server is running and the model 'mistral' is pulled.".
Proof.
  split; [vm_compute; reflexivity|]. split; [reflexivity|].
  destruct (query_rag_never_raises (H0:=Demo.services) Demo.model_config
              Demo.with_index Demo.ready_pipeline Demo.with_index Demo.stuff_chain ""
              Demo.with_index)
    as (answer & ollama_model_name & Hrun & Hmodel & _ & Hraise & _);
    [vm_compute; reflexivity | reflexivity |].
  exists answer, ollama_model_name. split; [exact Hrun|]. split; [exact Hmodel|].
  rewrite (Hraise _ eq_refl).
  assert (ollama_model_name = VStr "mistral") as -> by (vm_compute in Hmodel; congruence).
  reflexivity.
Defined.

Lemma debug_code_failure_to_string_witness :
  __init__ (H0:=Demo.services) Demo.model_config Demo.no_index
  = (Ok Demo.bare_pipeline, Demo.no_index)
  ∧ yaml_getitem (prompt_templates Demo.bare_pipeline) "debug_template"
    = Ok (VStr "Code: {code_snippet} Error: {error_message}")
  ∧ str_format (Services:=Demo.services) "Code: {code_snippet} Error: {error_message}"
      [("code_snippet", "FOR i := 1 TO n"); ("error_message", "E42")]
    = Ok "Code: FOR i := 1 TO n Error: E42"
  ∧ debug_code (H0:=Demo.services) Demo.bare_pipeline "FOR i := 1 TO n" "E42" Demo.no_index
    = (Ok "Check the loop bounds.",
       {| disk := Demo.fresh_disk;
          calls := [llm_invoked "Code: FOR i := 1 TO n Error: E42"] |}).
Proof.
  split; [vm_compute; reflexivity|]. split; [reflexivity|]. split; [vm_compute; reflexivity|].
  destruct (debug_code_failure_to_string (H0:=Demo.services) Demo.model_config
              Demo.no_index Demo.bare_pipeline Demo.no_index "FOR i := 1 TO n" "E42"
              Demo.no_index)
    as [Hfilled _]; [vm_compute; reflexivity|].
  destruct (Hfilled "Code: {code_snippet} Error: {error_message}"
              "Code: FOR i := 1 TO n Error: E42")
    as (reply & ollama_model_name & Hrun & _ & Htext & _);
    [reflexivity | vm_compute; reflexivity |].
  rewrite Hrun. by rewrite (Htext _ eq_refl).
Defined.

(** A templates file without [debug_template]: the pipeline is
    constructed, and [debug_code] raises [KeyError] instead of
    returning an error string. *)
Lemma debug_code_raises_without_template :
  __init__ (H0:=Demo.services_rag_only) Demo.model_config Demo.no_index
  = (Ok Demo.rag_only_pipeline, Demo.no_index)
  ∧ debug_code (H0:=Demo.services_rag_only) Demo.rag_only_pipeline "FOR i := 1 TO n" "E42"
      Demo.no_index
    = (Raise (KeyError "debug_template"), Demo.no_index).
Proof. split; vm_compute; reflexivity. Qed.

Lemma debug_code_template_error_witness :
  debug_code (H0:=Demo.services) Demo.no_templates "FOR i := 1 TO n" "E42" Demo.no_index
  = (Raise (Exn "TypeError" "'NoneType' object is not subscriptable"), Demo.no_index).
Proof.
  exact (debug_code_template_error (H0:=Demo.services) Demo.no_templates
           "FOR i := 1 TO n" "E42" Demo.no_index
           (Exn "TypeError" "'NoneType' object is not subscriptable") eq_refl).
Defined.

(** ** The question board *)
Section question_board.

Lemma truthy_nonempty s : s ≠ "" → truthy s = true.
Proof. by destruct s. Qed.

Lemma answer_form_key_not_ask_form id : "answer_form_" +:+ id ≠ "ask_question_form".
Proof.
  intros E. apply (f_equal chars) in E. rewrite chars_app in E. discriminate.
Qed.

Lemma junior_cannot (user_data : gmap string string) :
  user_data !! "experience_level" = Some "0-2yr" →
  CAN_ANSWER_QUESTION user_data = false.
Proof. unfold CAN_ANSWER_QUESTION, dict_get. by intros ->. Qed.

Lemma senior_can (user_data : gmap string string) level :
  user_data !! "experience_level" = Some level →
  level = "3-5yr" ∨ level = "6yr and above" →
  CAN_ANSWER_QUESTION user_data = true.
Proof. unfold CAN_ANSWER_QUESTION, dict_get. by intros -> [->| ->]. Qed.

Lemma load_data_from_excel_pending b :
  ∃ df b', load_data_from_excel PENDING_QUESTIONS_FILE b = (Next df, b')
           ∧ faq_xlsx b' = faq_xlsx b ∧ pending_xlsx b' = pending_xlsx b
           ∧ forms b' = forms b
           ∧ (∀ rows, content (pending_xlsx b) = sheet rows → df = rows ∧ b' = b).
Proof.
  unfold load_data_from_excel. simpl.
  destruct (content (pending_xlsx b)) as [|e|rows] eqn:E; simpl;
    eexists _, _; (split; [reflexivity|]); simpl; split_and!; try done.
  intros ? [= ->]. split; [done|]. by destruct b.
Qed.

(** The loop over the pending questions for a user who may not answer:
    one expander and one refusal per question, nothing else. *)
Lemma refusing_loop (rows : list pending) start b :
  for_iterrows start rows (λ _ pending_q,
    _ ← show (st_expander (pending_question pending_q));
    show (st_info "You must have 3+ years of experience to answer questions.")) b
  = (Next tt,
     {| faq_xlsx := faq_xlsx b; pending_xlsx := pending_xlsx b;
        screen := screen b ++ flat_map (λ q, [st_expander (pending_question q);
                                st_info "You must have 3+ years of experience to answer questions."]) rows;
        forms := forms b |}).
Proof.
  revert start b. induction rows as [|q rows IH]; intros start b; simpl.
  - rewrite app_nil_r. by destruct b.
  - unfold mbind at 1, script_bind. unfold mbind at 1, script_bind. simpl.
    rewrite IH. simpl. by rewrite <-!app_assoc.
Qed.

(** Without a submitted question, the "Submit a New Question" part
    leaves the files alone, however it ends. *)
Lemma ask_question_same_files r b :
  (∀ text, submitted r ≠ submit_question text) →
  faq_xlsx (ask_question r b).2 = faq_xlsx b
  ∧ pending_xlsx (ask_question r b).2 = pending_xlsx b
  ∧ ((ask_question r b).1 = Next tt ∨ ∃ e, (ask_question r b).1 = Uncaught e).
Proof.
  intros Hsub. unfold ask_question, mbind, script_bind, st_form.
  destruct (bool_decide _); simpl; [eauto|].
  destruct (submitted r) as [|text|key text] eqn:E; simpl; eauto.
  by destruct (Hsub text).
Qed.

(** C9. A user whose experience level is "0-2yr" may not answer.  The
    pending-questions part of the page then shows, for each pending
    question, its expander and the refusal, creates no form, ends
    normally and leaves both spreadsheet files as they were; and a run
    of the whole tab that does not submit a new question, whatever
    answer submission it carries, leaves both files as they were. *)
Theorem answering_refused_below_three_years r b :
  user_data r !! "experience_level" = Some "0-2yr" →
  CAN_ANSWER_QUESTION (user_data r) = false
  ∧ (∃ b', pending_questions r b = (Next tt, b')
           ∧ faq_xlsx b' = faq_xlsx b
           ∧ pending_xlsx b' = pending_xlsx b
           ∧ forms b' = forms b
           ∧ ∀ q rows, content (pending_xlsx b) = sheet (q :: rows) →
               screen b' = screen b
                 ++ flat_map (λ q, [st_expander (pending_question q);
                                st_info "You must have 3+ years of experience to answer questions."]) (q :: rows))
  ∧ ((∀ text, submitted r ≠ submit_question text) →
     faq_xlsx (tab3 r b).2 = faq_xlsx b ∧ pending_xlsx (tab3 r b).2 = pending_xlsx b).
Proof.
  intros Hlevel. pose proof (junior_cannot _ Hlevel) as Hcannot.
  assert (Hpending : ∀ b0, ∃ b', pending_questions r b0 = (Next tt, b')
            ∧ faq_xlsx b' = faq_xlsx b0
            ∧ pending_xlsx b' = pending_xlsx b0
            ∧ forms b' = forms b0
            ∧ ∀ q rows, content (pending_xlsx b0) = sheet (q :: rows) →
                screen b' = screen b0
                  ++ flat_map (λ q, [st_expander (pending_question q);
                                st_info "You must have 3+ years of experience to answer questions."]) (q :: rows)).
  { intros b0. unfold pending_questions. rewrite Hcannot.
    destruct (load_data_from_excel_pending b0)
      as (df & b1 & Hload & Hfaq & Hpen & Hforms & Hrows).
    unfold mbind at 1, script_bind. rewrite Hload.
    destruct df as [|q df].
    - eexists. split; [reflexivity|]. simpl. repeat split; try done.
      intros q rows Hcontent. by destruct (Hrows _ Hcontent).
    - rewrite refusing_loop. eexists. split; [reflexivity|]. simpl.
      repeat split; try done.
      intros q' rows Hcontent. destruct (Hrows _ Hcontent) as [[= -> ->] ->]. done. }
  split_and!; [done | apply Hpending |].
  intros Hsub. unfold tab3, mbind, script_bind.
  destruct (ask_question_same_files r b Hsub) as (Hfaq & Hpen & _).
  destruct (ask_question r b) as [[[]| |e] b1]; simpl in *; try done.
  destruct (Hpending b1) as (b' & -> & Hfaq' & Hpen' & _). simpl. split; congruence.
Qed.

(** A form that was not the one submitted only registers its key. *)
Lemma answer_form_other r rows index q b form_key answer :
  submitted r = submit_answer form_key answer →
  form_key ≠ "answer_form_" +:+ pending_id q →
  "answer_form_" +:+ pending_id q ∉ forms b →
  answer_form r rows index q b
  = (Next tt, {| faq_xlsx := faq_xlsx b; pending_xlsx := pending_xlsx b; screen := screen b;
                 forms := forms b ++ ["answer_form_" +:+ pending_id q] |}).
Proof.
  intros Hsub Hother Hfresh. unfold answer_form, mbind, script_bind, st_form.
  rewrite (bool_decide_eq_false_2 _ Hfresh), Hsub.
  by rewrite (bool_decide_eq_false_2 _ Hother).
Qed.

(** The submitted form, with a non-empty answer. *)
Lemma answer_form_submitted r rows index q b answer name faqs :
  submitted r = submit_answer ("answer_form_" +:+ pending_id q) answer →
  answer ≠ "" →
  user_data r !! "name" = Some name →
  "answer_form_" +:+ pending_id q ∉ forms b →
  stored (faq_xlsx b) = Some faqs →
  write_error (faq_xlsx b) = None →
  write_error (pending_xlsx b) = None →
  answer_form r rows index q b
  = (Rerun,
     {| faq_xlsx := {| content := sheet ({| faq_id := pending_id q;
                                            faq_question := pending_question q;
                                            faq_answer := strip answer;
                                            faq_timestamp := now r;
                                            faq_created_by := name |} :: faqs);
                       write_error := None |};
        pending_xlsx := {| content := sheet (delete index rows); write_error := None |};
        screen := screen b ++ [st_success "Answer submitted and added to FAQs!"];
        forms := forms b ++ ["answer_form_" +:+ pending_id q] |}).
Proof.
  intros Hsub Hanswer Hname Hfresh Hfaqs Hwrite_faq Hwrite_pending.
  unfold answer_form, mbind, script_bind, st_form.
  rewrite (bool_decide_eq_false_2 _ Hfresh), Hsub.
  rewrite bool_decide_eq_true_2 by done.
  rewrite (truthy_nonempty _ Hanswer). simpl.
  unfold load_data_from_excel, stored in *. simpl.
  destruct (content (faq_xlsx b)) as [|e|faqs'] eqn:Hcontent; simplify_eq;
    unfold uncaught; rewrite (getitem_Some _ _ _ Hname);
    unfold save_data_to_excel; simpl; rewrite Hwrite_faq; simpl;
    rewrite Hwrite_pending; reflexivity.
Qed.

(** The loop over the pending questions when the form of [q] was
    submitted: the questions before it get their expander and form, and
    the run stops at [q] with both files rewritten. *)
Lemma answering_loop r rows answer name faqs q post :
  submitted r = submit_answer ("answer_form_" +:+ pending_id q) answer →
  answer ≠ "" →
  user_data r !! "name" = Some name →
  ∀ pre start b,
    NoDup (pending_id <$> (pre ++ [q])) →
    (∀ q', q' ∈ pre ++ [q] → "answer_form_" +:+ pending_id q' ∉ forms b) →
    stored (faq_xlsx b) = Some faqs →
    write_error (faq_xlsx b) = None →
    write_error (pending_xlsx b) = None →
    ∃ b',
      for_iterrows start (pre ++ q :: post) (λ index pending_q,
        _ ← show (st_expander (pending_question pending_q));
        answer_form r rows index pending_q) b
      = (Rerun, b')
      ∧ faq_xlsx b' = {| content := sheet ({| faq_id := pending_id q;
                                              faq_question := pending_question q;
                                              faq_answer := strip answer;
                                              faq_timestamp := now r;
                                              faq_created_by := name |} :: faqs);
                         write_error := None |}
      ∧ pending_xlsx b' = {| content := sheet (delete (start + length pre) rows);
                             write_error := None |}
      ∧ last (screen b') = Some (st_success "Answer submitted and added to FAQs!").
Proof.
  intros Hsub Hanswer Hname pre.
  induction pre as [|q' pre IH]; intros start b Hids Hfresh Hfaqs Hwf Hwp; simpl.
  - unfold mbind at 1, script_bind. unfold mbind at 1, script_bind. simpl.
    rewrite (answer_form_submitted _ _ _ _ _ answer name faqs); try done.
    + eexists. split; [reflexivity|]. simpl. rewrite Nat.add_0_r.
      split_and!; try done. by rewrite last_snoc.
    + simpl. apply Hfresh. set_solver.
  - unfold mbind at 1, script_bind. unfold mbind at 1, script_bind. simpl.
    simpl in Hids. apply NoDup_cons in Hids as [Hq' Hids].
    rewrite (answer_form_other r rows start q' _ _ answer Hsub); simpl.
    + edestruct (IH (S start)) as (b' & -> & Hfaq' & Hpending' & Hlast); try done.
      * simpl. intros q'' Hq''. rewrite elem_of_app, list_elem_of_singleton.
        intros [Hold|Hnew].
        -- apply (Hfresh q''); [|done]. simpl. by right.
        -- apply (inj (String.app "answer_form_")) in Hnew.
           apply Hq'. rewrite <-Hnew. by apply list_elem_of_fmap_2.
      * eexists. split; [reflexivity|]. split_and!; try done.
        by rewrite Hpending', Nat.add_succ_r.
    + intros Hsame. apply (inj (String.app "answer_form_")) in Hsame.
      apply Hq'. rewrite <-Hsame. apply list_elem_of_fmap_2. set_solver.
    + apply Hfresh. set_solver.
Qed.

(** X5. The result of [save_data_to_excel] is not looked at: when the
    FAQ file cannot be written, the answered question is removed from the
    pending file all the same, and the answer is kept nowhere. *)
Lemma failed_faq_write_still_drops_question r rows index q b answer name e :
  submitted r = submit_answer ("answer_form_" +:+ pending_id q) answer →
  answer ≠ "" →
  user_data r !! "name" = Some name →
  "answer_form_" +:+ pending_id q ∉ forms b →
  write_error (faq_xlsx b) = Some e →
  write_error (pending_xlsx b) = None →
  ∃ b',
    answer_form r rows index q b = (Rerun, b')
    ∧ faq_xlsx b' = faq_xlsx b
    ∧ pending_xlsx b' = {| content := sheet (delete index rows); write_error := None |}.
Proof.
  intros Hsub Hanswer Hname Hfresh Hwrite_faq Hwrite_pending.
  unfold answer_form, mbind, script_bind, st_form.
  rewrite (bool_decide_eq_false_2 _ Hfresh), Hsub.
  rewrite bool_decide_eq_true_2 by done.
  rewrite (truthy_nonempty _ Hanswer). simpl.
  unfold load_data_from_excel. simpl.
  destruct (content (faq_xlsx b)) as [|e'|faqs'] eqn:Hcontent; simpl;
    unfold uncaught; rewrite (getitem_Some _ _ _ Hname);
    unfold save_data_to_excel; simpl; rewrite Hwrite_faq; simpl;
    rewrite Hwrite_pending; eexists; (split; [reflexivity|]); done.
Qed.

(** X6. Submitting a non-empty question puts one new row in front of
    the pending-questions file, with the stripped text, the asking
    user's name and the clock's value as id, and ends the run in a
    rerun; the FAQ file is not touched. *)
Lemma ask_question_adds_pending_row r b text name rows :
  submitted r = submit_question text →
  text ≠ "" →
  user_data r !! "name" = Some name →
  "ask_question_form" ∉ forms b →
  stored (pending_xlsx b) = Some rows →
  write_error (pending_xlsx b) = None →
  ∃ b',
    ask_question r b = (Rerun, b')
    ∧ faq_xlsx b' = faq_xlsx b
    ∧ stored (pending_xlsx b')
      = Some ({| pending_id := pretty (time_ns r); pending_question := strip text;
                 pending_timestamp := now r; pending_asked_by := name |} :: rows).
Proof.
  intros Hsub Htext Hname Hfresh Hrows Hwrite.
  unfold ask_question, mbind, script_bind, st_form.
  rewrite (bool_decide_eq_false_2 _ Hfresh), Hsub.
  rewrite (truthy_nonempty _ Htext). simpl.
  unfold load_data_from_excel, stored in *. simpl.
  destruct (content (pending_xlsx b)) as [|e|rows'] eqn:Hcontent; simplify_eq;
    unfold uncaught; rewrite (getitem_Some _ _ _ Hname);
    unfold save_data_to_excel; simpl; rewrite Hwrite; simpl;
    eexists; (split; [reflexivity|]); done.
Qed.

(** C8. When a user with at least three years of experience submits a
    non-empty answer in the form of a pending question, the run ends in
    a rerun after the success message, the pending-questions file holds
    the former rows without that one, and the FAQ file holds the former
    rows preceded by one new entry whose author is the answering user,
    whose question and id are those of the pending question and whose
    answer is the stripped text.  (The files are read and written
    without error, the question ids are distinct, and the run starts
    with no form on the page.) *)
Theorem answer_moves_question_to_faqs r b level name answer rows faqs index pending_q :
  user_data r !! "experience_level" = Some level →
  level = "3-5yr" ∨ level = "6yr and above" →
  user_data r !! "name" = Some name →
  submitted r = submit_answer ("answer_form_" +:+ pending_id pending_q) answer →
  answer ≠ "" →
  forms b = [] →
  pending_xlsx b = {| content := sheet rows; write_error := None |} →
  stored (faq_xlsx b) = Some faqs →
  write_error (faq_xlsx b) = None →
  rows !! index = Some pending_q →
  NoDup (pending_id <$> rows) →
  ∃ b' entry,
    tab3 r b = (Rerun, b')
    ∧ stored (pending_xlsx b') = Some (delete index rows)
    ∧ stored (faq_xlsx b') = Some (entry :: faqs)
    ∧ faq_created_by entry = name
    ∧ faq_question entry = pending_question pending_q
    ∧ faq_id entry = pending_id pending_q
    ∧ faq_answer entry = strip answer
    ∧ last (screen b') = Some (st_success "Answer submitted and added to FAQs!").
Proof.
  intros Hlevel Hsenior Hname Hsub Hanswer Hforms Hpending Hfaqs Hwf Hrow Hids.
  pose proof (senior_can _ _ Hlevel Hsenior) as Hcan.
  pose proof (take_drop_middle _ _ _ Hrow) as Hsplit.
  pose proof (lookup_lt_Some _ _ _ Hrow) as Hlt.
  unfold tab3. unfold mbind at 1, script_bind.
  unfold ask_question, mbind at 1, script_bind, st_form.
  rewrite Hforms, Hsub. simpl.
  unfold pending_questions, mbind at 1, script_bind, load_data_from_excel. simpl.
  rewrite Hpending. simpl. rewrite Hcan.
  set (b1 := {| faq_xlsx := faq_xlsx b; pending_xlsx := _; screen := _; forms := _ |}).
  destruct rows as [|row0 rows0] eqn:Hrows; [done|]. rewrite <-Hrows in *.
  edestruct (answering_loop r rows answer name faqs pending_q (drop (S index) rows)
               Hsub Hanswer Hname (take index rows) 0 b1)
    as (b' & Hloop & Hfaq' & Hpending' & Hlast); try done.
  - rewrite <-Hsplit in Hids. rewrite fmap_app, fmap_cons in Hids.
    rewrite fmap_app. simpl.
    apply NoDup_app in Hids as (Hpre & Hdisj & Hpost).
    apply NoDup_app. split_and!; [done| |apply NoDup_singleton].
    intros id Hid Hid'%list_elem_of_singleton. subst id.
    apply (Hdisj _ Hid). constructor.
  - intros q' _. simpl. rewrite list_elem_of_singleton. apply answer_form_key_not_ask_form.
  - rewrite Hsplit in Hloop. eexists b', _.
    split; [exact Hloop|]. unfold stored. rewrite Hfaq', Hpending'. simpl.
    rewrite length_take_le by lia. done.
Qed.

End question_board.

Lemma answer_moves_question_to_faqs_witness :
  Demo.senior !! "experience_level" = Some "3-5yr"
  ∧ Demo.asked !! 1 = Some {| pending_id := "1800"; pending_question := "What is CASE?";
                              pending_timestamp := 1800; pending_asked_by := "Al" |}
  ∧ ∃ b' entry,
      tab3 Demo.senior_answers Demo.start = (Rerun, b')
      ∧ stored (pending_xlsx b') = Some (delete 1 Demo.asked)
      ∧ stored (faq_xlsx b') = Some (entry :: Demo.answered)
      ∧ faq_created_by entry = "Bea"
      ∧ faq_question entry = "What is CASE?"
      ∧ faq_id entry = "1800"
      ∧ faq_answer entry = strip "Use CASE x OF"
      ∧ last (screen b') = Some (st_success "Answer submitted and added to FAQs!").
Proof.
  split; [reflexivity|]. split; [reflexivity|].
  apply (answer_moves_question_to_faqs Demo.senior_answers Demo.start "3-5yr" "Bea"
           "Use CASE x OF" Demo.asked Demo.answered 1
           {| pending_id := "1800"; pending_question := "What is CASE?";
              pending_timestamp := 1800; pending_asked_by := "Al" |});
    try reflexivity.
  - by left.
  - discriminate.
  - apply (bool_decide_unpack _). by vm_compute.
Defined.

Lemma answering_refused_below_three_years_witness :
  user_data Demo.junior_tries !! "experience_level" = Some "0-2yr"
  ∧ CAN_ANSWER_QUESTION (user_data Demo.junior_tries) = false
  ∧ faq_xlsx (tab3 Demo.junior_tries Demo.start).2 = faq_xlsx Demo.start
  ∧ pending_xlsx (tab3 Demo.junior_tries Demo.start).2 = pending_xlsx Demo.start.
Proof.
  split; [reflexivity|].
  destruct (answering_refused_below_three_years Demo.junior_tries Demo.start eq_refl)
    as (Hcannot & _ & Hfiles).
  split; [exact Hcannot|]. apply Hfiles. intros text. discriminate.
Defined.

Lemma failed_faq_write_still_drops_question_witness :
  ∃ b',
    answer_form Demo.senior_answers Demo.asked 1
      {| pending_id := "1800"; pending_question := "What is CASE?";
         pending_timestamp := 1800; pending_asked_by := "Al" |} Demo.locked_faqs
    = (Rerun, b')
    ∧ faq_xlsx b' = faq_xlsx Demo.locked_faqs
    ∧ pending_xlsx b' = {| content := sheet (delete 1 Demo.asked); write_error := None |}.
Proof.
  apply (failed_faq_write_still_drops_question Demo.senior_answers Demo.asked 1
           {| pending_id := "1800"; pending_question := "What is CASE?";
              pending_timestamp := 1800; pending_asked_by := "Al" |}
           Demo.locked_faqs "Use CASE x OF" "Bea"
           (Exn "PermissionError" "[Errno 13] Permission denied: 'data/faqs.xlsx'"));
    try reflexivity.
  - discriminate.
  - by vm_compute; intros ?%elem_of_nil.
Defined.

Lemma ask_question_adds_pending_row_witness :
  ∃ b',
    ask_question Demo.junior_asks Demo.start = (Rerun, b')
    ∧ faq_xlsx b' = faq_xlsx Demo.start
    ∧ stored (pending_xlsx b')
      = Some ({| pending_id := "1900"; pending_question := "How do I read a file?";
                 pending_timestamp := 1900; pending_asked_by := "Al" |} :: Demo.asked).
Proof.
  apply (ask_question_adds_pending_row Demo.junior_asks Demo.start
           "  How do I read a file? " "Al" Demo.asked); try reflexivity.
  - discriminate.
  - intros ?%elem_of_nil. done.
Defined.

(** * Further properties *)
Import Shell.

(** ** Strings *)
Section more_strings.

Lemma truthy_of_chars l : truthy (of_chars l) = true ↔ l ≠ [].
Proof. by destruct l. Qed.

Lemma lstrip_chars_nonempty l :
  lstrip_chars l ≠ [] ↔ Exists (λ c, isspace c = false) l.
Proof.
  induction l as [|c l IH]; simpl.
  - split; [done|]. by intros ?%Exists_nil.
  - destruct (isspace c) eqn:Hc.
    + rewrite IH, Exists_cons. split; [auto|]. intros [?|?]; [congruence|done].
    + split; [|done]. intros _. by left.
Qed.

Lemma lstrip_chars_keeps_visible l :
  Exists (λ c, isspace c = false) (lstrip_chars l) ↔ Exists (λ c, isspace c = false) l.
Proof.
  induction l as [|c l IH]; simpl; [done|].
  destruct (isspace c) eqn:Hc; [|done].
  rewrite IH, Exists_cons. split; [auto|]. intros [?|?]; [congruence|done].
Qed.

Lemma Exists_rev_iff {A} (P : A → Prop) (l : list A) : Exists P (rev l) ↔ Exists P l.
Proof.
  rewrite !Exists_exists. split; intros (x & Hx & HP); exists x; split; try done.
  - apply list_elem_of_In, in_rev. by apply list_elem_of_In in Hx.
  - apply list_elem_of_In. rewrite <-in_rev. by apply list_elem_of_In.
Qed.

(** The stripped string is non-empty exactly when the string has a
    character that is not white space. *)
Lemma strip_truthy s :
  truthy (strip s) = true ↔ Exists (λ c, isspace c = false) (chars s).
Proof.
  unfold strip. rewrite truthy_of_chars.
  rewrite <-lstrip_chars_keeps_visible.
  set (l := lstrip_chars (chars s)).
  rewrite <-(Exists_rev_iff _ l). rewrite <-lstrip_chars_nonempty.
  split; intros Hne Hnil; apply Hne.
  - by rewrite Hnil.
  - apply (f_equal (@rev ascii)) in Hnil. by rewrite rev_involutive in Hnil.
Qed.

Lemma strip_blank s :
  Forall (λ c, isspace c = true) (chars s) → strip s = "".
Proof.
  intros Hblank. destruct (strip s) eqn:E; [done|].
  assert (Hvisible : truthy (strip s) = true) by by rewrite E.
  apply strip_truthy in Hvisible. apply Exists_exists in Hvisible as (c & Hc & Hvis).
  rewrite Forall_forall in Hblank. specialize (Hblank c Hc). congruence.
Qed.

End more_strings.

(** ** Ingestion, continued *)
Section more_ingestion.
Context `{Libraries}.

Lemma appending_bind_fst {A B} (m : appending A) (f : A → appending B) :
  (m ≫= f).1 = m.1 ++ match m.2 with
                       | Ok a => (f a).1
                       | Raise _ => []
                       end.
Proof.
  unfold mbind, appending_bind. destruct m.2; simpl; [done|by rewrite app_nil_r].
Qed.

Lemma for_enumerate_Forall {A} (P : Document → Prop) (body : nat → A → appending unit) :
  (∀ i x, Forall P (body i x).1) →
  ∀ xs i, Forall P (for_enumerate i xs body).1.
Proof.
  intros Hbody xs. induction xs as [|x xs IH]; intros i; simpl; [constructor|].
  rewrite appending_bind_fst. apply Forall_app. split; [apply Hbody|].
  destruct (body i x).2; [apply IH|constructor].
Qed.

Lemma for_enumerate_app {A} (body : nat → A → appending unit) xs ys i :
  for_enumerate i (xs ++ ys) body
  = for_enumerate i xs body ≫= λ _, for_enumerate (i + length xs) ys body.
Proof.
  revert i. induction xs as [|x xs IH]; intros i; simpl.
  - rewrite Nat.add_0_r. unfold mbind, appending_bind. simpl.
    by destruct (for_enumerate i ys body).
  - rewrite IH. replace (i + S (length xs)) with (S i + length xs) by lia.
    unfold mbind, appending_bind. simpl.
    destruct (body i x) as [docs [[]|e]]; simpl; [|done].
    destruct (for_enumerate (S i) xs body) as [docs' [[]|e]]; simpl; [|done].
    by rewrite app_assoc.
Qed.

(** X7. An embedded image gives exactly one OCR record when its
    extension is [png], [jpeg] or [jpg] (in this case) and the text the
    engine returned has a character that is not white space; it gives
    none when the extension is another one, whatever the engine would
    say, or when the text is blank, as it is after an engine error.  In
    every case the loop over the images goes on. *)
Theorem ocr_image_record filename_base page_num img_index img :
  ∃ text,
    extract_text_from_image_ocr (image img) = Ok text
    ∧ (ocr_image filename_base page_num img_index (Ok img)).2 = Ok tt
    ∧ (ext img ∈ ["png"; "jpeg"; "jpg"] →
       Exists (λ c, isspace c = false) (chars text) →
       (ocr_image filename_base page_num img_index (Ok img)).1
       = [{| page_content := "Image content from page " +:+ pretty (page_num + 1)%nat
                             +:+ ":" +:+ newline +:+ text;
             metadata := {[ "source" := VStr filename_base;
                            "page" := VInt (Z.of_nat (page_num + 1));
                            "type" := VStr "image_ocr";
                            "image_index" := VInt (Z.of_nat (img_index + 1)) ]} |}])
    ∧ (ext img ∉ ["png"; "jpeg"; "jpg"] →
       (ocr_image filename_base page_num img_index (Ok img)).1 = [])
    ∧ (Forall (λ c, isspace c = true) (chars text) →
       (ocr_image filename_base page_num img_index (Ok img)).1 = [])
    ∧ (raised (Image_open (image img) ≫= pytesseract_image_to_string) = true → text = "").
Proof.
  destruct (extract_text_from_image_ocr_total (image img)) as [text Htext].
  exists text. split; [done|]. split; [apply ocr_image_never_raises|].
  unfold ocr_image, str_in. simpl. unfold mbind, appending_bind. simpl.
  rewrite Htext. simpl. split_and!.
  - intros Hext Hvisible. rewrite (bool_decide_eq_true_2 _ Hext).
    apply strip_truthy in Hvisible. by rewrite Hvisible.
  - intros Hext. by rewrite (bool_decide_eq_false_2 _ Hext).
  - intros Hblank. rewrite (strip_blank _ Hblank). by destruct (bool_decide _).
  - intros Hfail. rewrite (extract_text_from_image_ocr_failure _ Hfail) in Htext.
    by simplify_eq.
Qed.

(** What the metadata of an extracted record holds. *)
Lemma extracted_records_metadata filepath docs :
  extract_additional_content_from_pdf filepath = Ok docs →
  Forall (λ d,
    metadata d !! "source" = Some (VStr (basename filepath))
    ∧ ((metadata d !! "type" = Some (VStr "image_ocr")
        ∧ ∃ page_num img_index : nat,
            metadata d !! "page" = Some (VInt (Z.of_nat (page_num + 1)))
            ∧ metadata d !! "image_index" = Some (VInt (Z.of_nat (img_index + 1))))
       ∨ (metadata d !! "type" = Some (VStr "table_data")
          ∧ ∃ i : nat, metadata d !! "table_index" = Some (VInt (Z.of_nat (i + 1)))))) docs.
Proof.
  unfold extract_additional_content_from_pdf.
  destruct (fitz_open filepath) as [document|]; [|done]. intros [= <-].
  rewrite appending_bind_fst. apply Forall_app. split.
  - apply for_enumerate_Forall. intros page_num [image_list|e]; [|constructor].
    unfold ocr_page. rewrite appending_bind_fst. simpl.
    apply for_enumerate_Forall. intros img_index [img|e]; [|constructor].
    unfold ocr_image. rewrite appending_bind_fst. simpl.
    destruct (str_in _ _); [|constructor].
    rewrite appending_bind_fst. simpl.
    destruct (extract_text_from_image_ocr _) as [text|]; [|constructor].
    destruct (truthy _); [|constructor]. apply Forall_singleton. simpl.
    split; [done|]. left. split; [done|]. by exists page_num, img_index.
  - destruct (ocr_pages _ _).2; [|constructor].
    rewrite appending_bind_fst. simpl.
    destruct (camelot_read_pdf filepath) as [tables|]; [|constructor].
    apply for_enumerate_Forall. intros i table.
    unfold table_record. rewrite appending_bind_fst. simpl.
    destruct (df_to_markdown table); [|constructor]. apply Forall_singleton. simpl.
    split; [done|]. right. split; [done|]. by exists i.
Qed.


Lemma basename_go_no_slash acc l :
  "/"%char ∉ l → basename_go acc l = acc ++ l.
Proof.
  revert acc. induction l as [|c l IH]; intros acc Hl; simpl; [by rewrite app_nil_r|].
  apply not_elem_of_cons in Hl as [Hc Hl].
  destruct (Ascii.eqb_spec c "/"); [congruence|].
  rewrite IH by done. by rewrite <-app_assoc.
Qed.

Lemma basename_go_after_slash acc l r :
  basename_go acc (l ++ "/"%char :: r) = basename_go [] r.
Proof.
  revert acc. induction l as [|c l IH]; intros acc; simpl.
  - done.
  - destruct (Ascii.eqb c "/"); apply IH.
Qed.

Lemma endswith_slash a : endswith a "/" = true → ∃ l, chars a = l ++ ["/"%char].
Proof. intros [stem ->]%endswith_spec. exists (chars stem). apply chars_app. Qed.

(** Joining a directory and an entry name and taking the base name
    gives the entry name back. *)
Lemma basename_join pdf_dir f :
  "/"%char ∉ chars f → basename (join pdf_dir f) = f.
Proof.
  intros Hf. unfold join.
  rewrite bool_decide_eq_false_2.
  2:{ intros [k Hk]. apply Hf. rewrite Hk. simpl. by left. }
  unfold basename.
  destruct (negb (truthy pdf_dir) || endswith pdf_dir "/") eqn:Hdir.
  - rewrite chars_app. apply orb_true_iff in Hdir as [Hempty|Hslash].
    + destruct pdf_dir; [|done]. simpl.
      rewrite basename_go_no_slash by done. apply of_chars_chars.
    + destruct (endswith_slash _ Hslash) as [l ->]. rewrite <-app_assoc. simpl.
      rewrite basename_go_after_slash, basename_go_no_slash by done. apply of_chars_chars.
  - rewrite !chars_app. simpl.
    rewrite basename_go_after_slash, basename_go_no_slash by done. apply of_chars_chars.
Qed.

(** X9. For an entry of the source directory (a name without slash),
    every record extracted from the joined path carries the entry's
    name as source, whatever the directory. *)
Theorem additional_records_source_is_entry_name pdf_dir f docs :
  "/"%char ∉ chars f →
  extract_additional_content_from_pdf (join pdf_dir f) = Ok docs →
  Forall (λ d, metadata d !! "source" = Some (VStr f)) docs.
Proof.
  intros Hf Hdocs. pose proof (extracted_records_metadata _ _ Hdocs) as Hprov.
  rewrite (basename_join _ _ Hf) in Hprov.
  eapply Forall_impl; [exact Hprov|]. by intros d [Hsource _].
Qed.

End more_ingestion.

Section more_extraction.
Context `{Libraries}.

Lemma appending_bind_snd {A B} (m : appending A) (f : A → appending B) :
  (m ≫= f).2 = match m.2 with
               | Ok a => (f a).2
               | Raise e => Raise e
               end.
Proof. unfold mbind, appending_bind. by destruct m.2. Qed.

Lemma table_record_converted filename_base i (t : camelot_table) :
  raised (df_to_markdown t) = false →
  (table_record filename_base i t).2 = Ok tt
  ∧ length (table_record filename_base i t).1 = 1%nat.
Proof.
  unfold table_record. rewrite appending_bind_fst, appending_bind_snd. simpl.
  by destruct (df_to_markdown t).
Qed.

Lemma table_record_failed filename_base i (t : camelot_table) :
  raised (df_to_markdown t) = true →
  (table_record filename_base i t).1 = []
  ∧ ∃ e, (table_record filename_base i t).2 = Raise e.
Proof.
  unfold table_record. rewrite appending_bind_fst, appending_bind_snd. simpl.
  destruct (df_to_markdown t) as [|e]; [done|]. eauto.
Qed.

Lemma table_records_all_converted filename_base (tables : list camelot_table) i :
  Forall (λ t, raised (df_to_markdown t) = false) tables →
  (for_enumerate i tables (table_record filename_base)).2 = Ok tt
  ∧ length (for_enumerate i tables (table_record filename_base)).1 = length tables.
Proof.
  intros Hall. revert i. induction Hall as [|t tables Ht _ IH]; intros i; [done|].
  destruct (table_record_converted filename_base i t Ht) as [Hok Hone].
  destruct (IH (S i)) as [Hrest Hlen].
  change (for_enumerate i (t :: tables) (table_record filename_base))
    with (table_record filename_base i t
          ≫= λ _, for_enumerate (S i) tables (table_record filename_base)).
  rewrite appending_bind_fst, appending_bind_snd, Hok. split; [done|].
  rewrite length_app, Hone, Hlen. done.
Qed.

(** X10. When the conversion of one table to Markdown fails, the loop
    over the tables stops there: the function returns the OCR records
    and one record for each table before the failing one; the tables
    after it give nothing, whether or not they could be converted. *)
Theorem table_failure_keeps_earlier_tables filepath document before bad after :
  fitz_open filepath = Ok document →
  (ocr_pages (basename filepath) document).2 = Ok tt →
  camelot_read_pdf filepath = Ok (before ++ bad :: after) →
  Forall (λ t, raised (df_to_markdown t) = false) before →
  raised (df_to_markdown bad) = true →
  extract_additional_content_from_pdf filepath
  = Ok ((ocr_pages (basename filepath) document).1
        ++ (table_records (basename filepath) before).1)
  ∧ length (table_records (basename filepath) before).1 = length before.
Proof.
  intros Hopen Hocr Htables Hbefore Hbad.
  destruct (table_records_all_converted (basename filepath) before 0 Hbefore) as [Hok Hlen].
  split; [|done].
  unfold extract_additional_content_from_pdf. rewrite Hopen. f_equal.
  rewrite appending_bind_fst, Hocr. f_equal.
  rewrite appending_bind_fst, Htables. simpl.
  unfold table_records. rewrite for_enumerate_app, appending_bind_fst, Hok. simpl.
  change (for_enumerate (length before) (bad :: after) (table_record (basename filepath)))
    with (table_record (basename filepath) (length before) bad
          ≫= λ _, for_enumerate (S (length before)) after (table_record (basename filepath))).
  rewrite appending_bind_fst.
  destruct (table_record_failed (basename filepath) (length before) bad Hbad) as [-> [e ->]].
  by rewrite !app_nil_r.
Qed.

Lemma embed_documents_raises embeddings documents :
  Exists (λ d, raised (embed embeddings (page_content d)) = true) documents →
  raised (embed_documents embeddings documents) = true.
Proof.
  induction 1 as [d ds Hd|d ds _ IH]; simpl.
  - by destruct (embed embeddings (page_content d)).
  - destruct (embed embeddings (page_content d)); [|done]. simpl.
    by destruct (embed_documents embeddings ds).
Qed.

(** X11. When the embedding model cannot be loaded, or the embedding of
    one record fails, building the vector store raises and the disk is
    left as it was: nothing is saved, and an index saved earlier stays
    in place. *)
Theorem create_and_save_failure_leaves_disk documents name kwargs path fs :
  raised (SentenceTransformerEmbeddings name kwargs) = true
  ∨ Exists (λ d, raised (embed {| model_name := name; model_kwargs := kwargs |}
                           (page_content d)) = true) documents →
  documents ≠ [] →
  ∃ e, create_and_save_vector_store documents name kwargs path fs = (Raise e, fs).
Proof.
  intros Hfail Hne. destruct documents as [|d ds]; [done|].
  unfold create_and_save_vector_store.
  unfold mbind at 1, stateful_bind, pure_call.
  destruct (SentenceTransformerEmbeddings name kwargs) as [[]|e]; [|by exists e].
  destruct Hfail as [?|Hfail]; [done|].
  apply embed_documents_raises in Hfail.
  unfold mbind at 1, stateful_bind, from_documents.
  destruct (embed_documents _ (d :: ds)) as [|e]; [done|]. by exists e.
Qed.

End more_extraction.

(** ** The pipeline object, continued *)
Section more_pipeline.
Context `{Services}.

(** X13. A constructed pipeline was given the templates file and the
    six settings the constructor subscripts: the object holds the
    parsed templates, the configured embedding model and the configured
    language model, and the index directory is configured. *)
Theorem init_requirements cfg w0 self w1 :
  __init__ cfg w0 = (Ok self, w1) →
  exists_ (disk w0) "config/prompt_templates.yaml" = true
  ∧ yaml_safe_load "config/prompt_templates.yaml" (disk w0) = Ok (prompt_templates self)
  ∧ cfg !! "embedding_model_name" = Some (model_name (embeddings self))
  ∧ cfg !! "embedding_model_kwargs" = Some (model_kwargs (embeddings self))
  ∧ cfg !! "ollama_base_url" = Some (base_url (llm self))
  ∧ cfg !! "ollama_model_name" = Some (model (llm self))
  ∧ cfg !! "ollama_temperature" = Some (temperature (llm self))
  ∧ is_Some (cfg !! "vector_store_path").
Proof.
  unfold __init__.
  unfold mbind at 1, stateful_bind, on_disk, load_prompt_templates.
  destruct (exists_ (disk w0) "config/prompt_templates.yaml") eqn:Hfile; simpl; [|done].
  destruct (yaml_safe_load _ _) as [templates|] eqn:Hparse; [|done].
  unfold mbind, stateful_bind, pure_call, mret, stateful_ret.
  intros E.
  repeat match type of E with
         | context [match ?x with _ => _ end] => destruct x eqn:?; simplify_eq/=
         end.
  split_and!; eauto using getitem_Ok.
  match goal with
  | Hload : context [_load_or_recreate_vector_store] |- _ =>
    unfold _load_or_recreate_vector_store in Hload;
    unfold mbind at 1, stateful_bind, pure_call in Hload;
    destruct (getitem cfg "vector_store_path") as [path|] eqn:Hpath;
      simpl in Hload; try done
  end.
  exists path. by apply getitem_Ok.
Qed.

(** X14. A constructed pipeline has a QA chain exactly when it holds a
    vector index.  The chain then is of type [stuff], returns its
    source documents, uses the pipeline's language model and the
    [rag_template] entry of the templates as prompt, and retrieves the
    five nearest records from that index. *)
Theorem init_chain_iff_index cfg w0 self w1 :
  __init__ cfg w0 = (Ok self, w1) →
  (is_Some (qa_chain self) ↔ is_Some (vectorstore self))
  ∧ ∀ chain,
      qa_chain self = Some chain →
      chain_type chain = "stuff"
      ∧ return_source_documents chain = true
      ∧ chain_llm chain = llm self
      ∧ yaml_getitem (prompt_templates self) "rag_template" = Ok (prompt chain)
      ∧ retriever self = Some (chain_retriever chain)
      ∧ k (chain_retriever chain) = 5%nat
      ∧ vectorstore self = Some (vectorstore_of (chain_retriever chain)).
Proof.
  unfold __init__.
  unfold mbind, stateful_bind, pure_call, on_disk, mret, stateful_ret.
  intros E.
  repeat match type of E with
         | context [match ?x with _ => _ end] => destruct x eqn:?; simplify_eq/=
         end.
  all: unfold _initialize_qa_chain, mbind, result_bind in *.
  all: repeat match goal with
         | E' : context [match ?x with _ => _ end] |- _ => destruct x eqn:?; simplify_eq/=
         end.
  all: split; [split; intros [? ?]; by eauto|].
  all: intros chain ?; by simplify_eq/=.
Qed.

End more_pipeline.

(** ** The chat tab *)
Section more_strings_2.

Lemma has_infix_spec needle l :
  has_infix needle l = true ↔ ∃ a b, l = a ++ needle ++ b.
Proof.
  induction l as [|c l IH]; simpl.
  - rewrite orb_false_r, bool_decide_eq_true. split.
    + intros [b Hb]. exists [], b. done.
    + intros (a & b & Hl). symmetry in Hl.
      apply app_eq_nil in Hl as [-> [-> ->]%app_eq_nil]. by exists [].
  - rewrite orb_true_iff, bool_decide_eq_true, IH. split.
    + intros [[b Hb]|(a & b & ->)].
      * exists [], b. done.
      * exists (c :: a), b. done.
    + intros (a & b & Hl). destruct a as [|c' a]; simpl in Hl.
      * left. by exists b.
      * right. exists a, b. by simplify_eq.
Qed.

Lemma contains_spec s needle :
  contains s needle = true ↔ ∃ a b, s = a +:+ needle +:+ b.
Proof.
  unfold contains. rewrite has_infix_spec. split.
  - intros (a & b & Hs). exists (of_chars a), (of_chars b).
    apply chars_inj. by rewrite !chars_app, !chars_of_chars.
  - intros (a & b & ->). exists (chars a), (chars b). by rewrite !chars_app.
Qed.

Lemma lower_app a b : lower (a +:+ b) = lower a +:+ lower b.
Proof.
  unfold lower. apply chars_inj.
  by rewrite chars_of_chars, !chars_app, !chars_of_chars, map_app.
Qed.

Lemma contains_nonempty s needle :
  needle ≠ "" → contains (lower s) needle = true → s ≠ "".
Proof.
  intros Hneedle [a [b Hs]]%contains_spec ->.
  destruct a; [|done]. simpl in Hs. by destruct needle.
Qed.

End more_strings_2.

Section chat.
Context `{Services}.

Lemma query_rag_keeps_disk self question w :
  disk (query_rag self question w).2 = disk w.
Proof.
  unfold query_rag. destruct (qa_chain self) as [chain|]; [|done].
  unfold try_except_in, call_chain, mbind, stateful_bind, pure_call, mret, stateful_ret.
  destruct (RetrievalQA_call _ _ _) as [result|e]; simpl.
  - destruct (getitem result "result"); simpl; [done|].
    by destruct (getitem (config self) "ollama_model_name").
  - by destruct (getitem (config self) "ollama_model_name").
Qed.

Lemma debug_code_keeps_disk self code_snippet error_message w :
  disk (debug_code self code_snippet error_message w).2 = disk w.
Proof.
  unfold debug_code.
  unfold mbind at 1, stateful_bind, pure_call.
  destruct (yaml_getitem _ _) as [debug_template|]; [|done].
  unfold mbind at 1, stateful_bind.
  destruct (format _ _) as [debug_prompt|]; [|done].
  unfold try_except_in, invoke, mbind, stateful_bind, pure_call, mret, stateful_ret.
  destruct (llm_invoke _ _ _); simpl; [done|].
  by destruct (getitem (config self) "ollama_model_name").
Qed.

(** The pipeline method a prompt is sent to, as a call on the world. *)
Lemma tab1_turn rag_pipeline config_data prompt c :
  prompt ≠ "" →
  tab1 rag_pipeline config_data (Some prompt) c
  = let history := from_option id [greeting] (messages c) in
    let user := {| role := "user"; message_content := VStr prompt |} in
    match rag_pipeline with
    | None =>
      (Ok tt,
       {| messages := Some (history ++ [user;
            {| role := "assistant";
               message_content := VStr "The AI is not ready yet. Please try again after the system is fully initialized." |}]);
          boxes := boxes c ++ [st_error "RAG Pipeline is not initialized. Please check the sidebar for instructions to set up the AI."];
          outside := outside c |})
    | Some self =>
      let '(response, w) :=
        if contains (lower prompt) "error" && contains (lower prompt) "code"
        then (text ← debug_code self "Please provide the code snippet you're working with."
                       "Please provide the exact error message.";
              mret (VStr text)) (outside c)
        else query_rag self prompt (outside c) in
      match response with
      | Ok reply =>
        (Ok tt,
         {| messages := Some (history ++ [user; {| role := "assistant"; message_content := reply |}]);
            boxes := boxes c;
            outside := w |})
      | Raise e =>
        (Ok tt,
         {| messages := Some (history ++ [user;
              {| role := "assistant";
                 message_content := VStr "I apologize, an error occurred while processing your request. Please try again or check the server status." |}]);
            boxes := boxes c ++
              [st_error ("An error occurred during AI processing: " +:+ exc_str e +:+ ". "
                         +:+ "Please check the console for more details and ensure "
                         +:+ "Ollama server is running with the model '"
                         +:+ py_str (dict_get config_data "ollama_model_name" (VStr "mistral")) +:+ "'. "
                         +:+ "Also, ensure the FAISS index is built.")];
            outside := w |})
      end
    end.
Proof.
  intros Hprompt. unfold tab1. rewrite (truthy_nonempty _ Hprompt).
  unfold mbind at 1, stateful_bind.
  unfold mbind at 1, stateful_bind, say.
  destruct c as [[history|] shown w]; simpl.
  all: destruct rag_pipeline as [self|]; simpl;
    [|unfold mbind, stateful_bind, post; simpl; by rewrite <-?app_assoc].
  all: unfold try_except_in, in_world.
  all: destruct (contains (lower prompt) "error" && contains (lower prompt) "code"); simpl.
  all: unfold mbind, stateful_bind, mret, stateful_ret, post; simpl.
  all: try (destruct (debug_code _ _ _ _) as [[text|e] w']; simpl; by rewrite <-?app_assoc).
  all: destruct (query_rag _ _ _) as [[answer|e] w']; simpl; by rewrite <-?app_assoc.
Qed.

End chat.

Section chat_turns.
Context `{Services}.

(** X15. A chat turn never raises, whatever the pipeline does: the
    history (started with the greeting if the session had none) grows
    by the user's message and exactly one assistant message, and the
    disk is left as it was. *)
Theorem chat_turn_appends_one_reply rag_pipeline config_data prompt c :
  prompt ≠ "" →
  ∃ reply c',
    tab1 rag_pipeline config_data (Some prompt) c = (Ok tt, c')
    ∧ messages c'
      = Some (from_option id [greeting] (messages c)
              ++ [{| role := "user"; message_content := VStr prompt |};
                  {| role := "assistant"; message_content := reply |}])
    ∧ disk (outside c') = disk (outside c).
Proof.
  intros Hprompt. rewrite (tab1_turn _ _ _ _ Hprompt). simpl.
  destruct rag_pipeline as [self|]; [|by eexists _, _].
  destruct (contains (lower prompt) "error" && contains (lower prompt) "code").
  - pose proof (debug_code_keeps_disk self "Please provide the code snippet you're working with."
                  "Please provide the exact error message." (outside c)) as Hdisk.
    unfold mbind, stateful_bind, mret, stateful_ret.
    destruct (debug_code _ _ _ _) as [[text|e] w]; by eexists _, _.
  - pose proof (query_rag_keeps_disk self prompt (outside c)) as Hdisk.
    destruct (query_rag _ _ _) as [[answer|e] w]; by eexists _, _.
Qed.

(** X16. A message that mentions both "error" and "code", in any case,
    is not passed on: the debugging prompt is filled with two fixed
    sentences.  Any two such messages therefore lead to the same call
    of the model and get the same reply. *)
Theorem chat_debug_route_ignores_prompt self config_data prompt prompt' c :
  contains (lower prompt) "error" = true →
  contains (lower prompt) "code" = true →
  contains (lower prompt') "error" = true →
  contains (lower prompt') "code" = true →
  ∃ reply c1 c2,
    tab1 (Some self) config_data (Some prompt) c = (Ok tt, c1)
    ∧ tab1 (Some self) config_data (Some prompt') c = (Ok tt, c2)
    ∧ messages c1
      = Some (from_option id [greeting] (messages c)
              ++ [{| role := "user"; message_content := VStr prompt |};
                  {| role := "assistant"; message_content := reply |}])
    ∧ messages c2
      = Some (from_option id [greeting] (messages c)
              ++ [{| role := "user"; message_content := VStr prompt' |};
                  {| role := "assistant"; message_content := reply |}])
    ∧ outside c1 = outside c2
    ∧ outside c1
      = (debug_code self "Please provide the code snippet you're working with."
           "Please provide the exact error message." (outside c)).2.
Proof.
  intros Herror Hcode Herror' Hcode'.
  assert (prompt ≠ "") as Hprompt by (by apply (contains_nonempty _ "error")).
  assert (prompt' ≠ "") as Hprompt' by (by apply (contains_nonempty _ "error")).
  rewrite (tab1_turn _ _ _ _ Hprompt), (tab1_turn _ _ _ _ Hprompt'). simpl.
  rewrite Herror, Hcode, Herror', Hcode'. simpl.
  unfold mbind, stateful_bind, mret, stateful_ret.
  destruct (debug_code _ _ _ _) as [[text|e] w]; by eexists _, _, _.
Qed.

(** The words are found whatever their case and wherever they stand. *)
Lemma contains_lower_infix before word after needle :
  lower word = needle →
  contains (lower (before +:+ word +:+ after)) needle = true.
Proof.
  intros <-. apply contains_spec. exists (lower before), (lower after).
  by rewrite !lower_app.
Qed.

(** X17. The chat tab catches what [debug_code] lets through: when the
    debugging template is missing or cannot be filled, the turn still
    ends normally, with an error box that carries the text of the
    exception and the configured model name, an apology as reply, and
    no call of the model. *)
Theorem chat_apologises_on_template_error self config_data prompt c e :
  contains (lower prompt) "error" = true →
  contains (lower prompt) "code" = true →
  (yaml_getitem (prompt_templates self) "debug_template"
   ≫= λ debug_template,
        format debug_template
          [("code_snippet", "Please provide the code snippet you're working with.");
           ("error_message", "Please provide the exact error message.")])
  = Raise e →
  tab1 (Some self) config_data (Some prompt) c
  = (Ok tt,
     {| messages :=
          Some (from_option id [greeting] (messages c)
                ++ [{| role := "user"; message_content := VStr prompt |};
                    {| role := "assistant";
                       message_content := VStr "I apologize, an error occurred while processing your request. Please try again or check the server status." |}]);
        boxes := boxes c ++
          [st_error ("An error occurred during AI processing: " +:+ exc_str e +:+ ". "
                     +:+ "Please check the console for more details and ensure "
                     +:+ "Ollama server is running with the model '"
                     +:+ py_str (dict_get config_data "ollama_model_name" (VStr "mistral")) +:+ "'. "
                     +:+ "Also, ensure the FAISS index is built.")];
        outside := outside c |}).
Proof.
  intros Herror Hcode Htemplate.
  assert (prompt ≠ "") as Hprompt by (by apply (contains_nonempty _ "error")).
  rewrite (tab1_turn _ _ _ _ Hprompt). simpl. rewrite Herror, Hcode. simpl.
  assert (debug_code self "Please provide the code snippet you're working with."
            "Please provide the exact error message." (outside c) = (Raise e, outside c)) as Hdebug.
  { unfold debug_code, stateful_bind, pure_call. unfold mbind, stateful_bind.
    revert Htemplate. unfold mbind, result_bind.
    destruct (yaml_getitem _ _) as [debug_template|]; simpl; [|by intros [= ->]].
    by intros ->. }
  unfold mbind, stateful_bind. by rewrite Hdebug.
Qed.

Lemma query_rag_returns self question w :
  is_Some (config self !! "ollama_model_name") →
  ∃ answer, (query_rag self question w).1 = Ok answer.
Proof.
  intros [ollama_model_name Hmodel]. unfold query_rag.
  destruct (qa_chain self) as [chain|]; [|by eexists].
  unfold try_except_in, call_chain, mbind, stateful_bind, pure_call, mret, stateful_ret.
  rewrite (getitem_Some _ _ _ Hmodel).
  destruct (RetrievalQA_call _ _ _) as [result|e]; simpl; [|by eexists].
  destruct (getitem result "result"); by eexists.
Qed.

(** X18. With a constructed pipeline, a message that does not mention
    both words is put to [query_rag] as it is, and the reply shown is
    what [query_rag] returned, be it an answer, the not-ready sentence
    or its error text: the tab adds no error box of its own. *)
Theorem chat_question_route cfg w0 self w1 config_data prompt c :
  __init__ cfg w0 = (Ok self, w1) →
  prompt ≠ "" →
  contains (lower prompt) "error" && contains (lower prompt) "code" = false →
  ∃ answer,
    (query_rag self prompt (outside c)).1 = Ok answer
    ∧ tab1 (Some self) config_data (Some prompt) c
      = (Ok tt,
         {| messages :=
              Some (from_option id [greeting] (messages c)
                    ++ [{| role := "user"; message_content := VStr prompt |};
                        {| role := "assistant"; message_content := answer |}]);
            boxes := boxes c;
            outside := (query_rag self prompt (outside c)).2 |}).
Proof.
  intros Hinit Hprompt Hroute.
  destruct (init_invariant _ _ _ _ Hinit) as (Hcfg & Hmodel & _ & _).
  rewrite <-Hcfg in Hmodel.
  destruct (query_rag_returns self prompt (outside c) Hmodel) as [answer Hanswer].
  exists answer. split; [done|].
  rewrite (tab1_turn _ _ _ _ Hprompt). simpl. rewrite Hroute.
  destruct (query_rag _ _ _) as [r w]. simpl in *. by subst r.
Qed.

(** X19. The sidebar reports on the pipeline object, not on the index.
    When the index directory does not exist, a pipeline that could be
    constructed is announced as ready, without error box, while every
    question put to it gets the not-ready sentence and no call is
    made. *)
Theorem sidebar_ready_without_index cfg w path self shown w' :
  cfg !! "vector_store_path" = Some (VStr path) →
  disk w !! path = None ∨ disk w !! path = Some (Dir []) →
  initialize_rag_pipeline_cached cfg w = (Some self, shown, w') →
  sidebar_status (Some self) cfg = st_success "AI is ready! Ollama connected."
  ∧ shown = []
  ∧ ∀ question w'',
      query_rag self question w''
      = (Ok (VStr "RAG system not ready. Please ensure data has been ingested."), w'').
Proof.
  intros Hpath Hdir. unfold initialize_rag_pipeline_cached.
  destruct (__init__ cfg w) as [[pipeline|e] w1] eqn:Hinit; [|done].
  intros [= -> <- <-].
  pose proof (init_without_index _ _ _ _ _ Hpath Hdir Hinit) as Hnone.
  destruct (init_invariant _ _ _ _ Hinit) as (_ & _ & Hchain & _).
  split_and!; [done..|].
  intros question w''. unfold query_rag. by rewrite (Hchain Hnone).
Qed.

(** X20. Without the templates file the pipeline is not constructed:
    the application gets [None] and an error box naming the file,
    nothing has been written or called, the sidebar reports that the AI
    is not ready, and every chat message gets the fixed not-ready
    reply. *)
Theorem missing_templates_file_degrades cfg w :
  disk w !! "config/prompt_templates.yaml" = None →
  initialize_rag_pipeline_cached cfg w
  = (None,
     [st_error ("Failed to initialize RAG Pipeline: Prompt templates file not found: "
                +:+ "config/prompt_templates.yaml"
                +:+ ". Please check Ollama server, model, and config.")],
     w)
  ∧ sidebar_status None cfg
    = st_error ("AI not ready. Check console for errors. Ensure Ollama server is running and the model "
                +:+ "('" +:+ py_str (dict_get cfg "ollama_model_name" (VStr "mistral")) +:+ "') is pulled. "
                +:+ "Also, ensure FAISS index is built by clicking 'Ingest/Rebuild FAISS Index'.")
  ∧ ∀ prompt c,
      prompt ≠ "" →
      tab1 None cfg (Some prompt) c
      = (Ok tt,
         {| messages :=
              Some (from_option id [greeting] (messages c)
                    ++ [{| role := "user"; message_content := VStr prompt |};
                        {| role := "assistant";
                           message_content := VStr "The AI is not ready yet. Please try again after the system is fully initialized." |}]);
            boxes := boxes c ++ [st_error "RAG Pipeline is not initialized. Please check the sidebar for instructions to set up the AI."];
            outside := outside c |}).
Proof.
  intros Hfile%exists__false. split_and!.
  - unfold initialize_rag_pipeline_cached, __init__.
    unfold mbind at 1, stateful_bind, on_disk, load_prompt_templates.
    rewrite Hfile. simpl. by destruct w.
  - done.
  - intros prompt c Hprompt. by rewrite (tab1_turn _ _ _ _ Hprompt).
Qed.

End chat_turns.

(** ** The login page and the ingestion button *)
Section login.

(** X21. Logging in needs a name and an e-mail address, and nothing
    else: with one of them empty the session is left as it was and an
    error is shown; otherwise the session is logged in under the
    entered name, with the chosen level, and may answer questions
    exactly when that level is "3-5yr" or "6yr and above". *)
Theorem login_sets_the_account form s :
  log_in_pressed form = true →
  (entered_name form = "" ∨ entered_email form = "" →
   show_login_page form s = (Next tt, s, [st_error "Name and Email ID are required."]))
  ∧ (entered_name form ≠ "" → entered_email form ≠ "" →
     ∃ s',
       show_login_page form s
       = (Rerun, s', [st_success ("Welcome, " +:+ entered_name form +:+ "! You are now logged in.")])
       ∧ logged_in s' = true
       ∧ account s' !! "name" = Some (entered_name form)
       ∧ account s' !! "email" = Some (entered_email form)
       ∧ account s' !! "experience_level" = Some (selected_level form)
       ∧ CAN_ANSWER_QUESTION (account s')
         = bool_decide (selected_level form = "3-5yr" ∨ selected_level form = "6yr and above")).
Proof.
  intros Hpressed. unfold show_login_page. rewrite Hpressed. split.
  - intros [-> | ->]; simpl; [done|]. by rewrite andb_false_r.
  - intros Hname Hemail. rewrite !truthy_nonempty by done. simpl.
    eexists. split; [reflexivity|]. simpl.
    split_and!; try by simplify_map_eq.
    unfold CAN_ANSWER_QUESTION, dict_get, str_in.
    rewrite lookup_insert_ne, lookup_insert_ne, lookup_insert by done. simpl.
    apply bool_decide_ext. rewrite !elem_of_cons, elem_of_nil. tauto.
Qed.

End login.

Section ingestion_button_facts.
Context `{Libraries}.
Variable makedirs : string → gmap string node → result unit * gmap string node.

(** What the button does once the pipeline is there. *)
Lemma ingest_camos_data_to_faiss_unfold self config_data s :
  ingest_camos_data_to_faiss makedirs (Some self) config_data s
  = let told := notices s ++ [st_info "Starting Camos data ingestion into FAISS..."] in
    match makedirs (cfg_vector_store_path config_data) (disk_now s) with
    | (Raise e, fs) =>
      (Uncaught e, {| disk_now := fs; notices := told; cache_cleared := cache_cleared s |})
    | (Ok _, fs) =>
      match load_and_process_camos_docs fs (cfg_pdf_data_dir config_data)
              (cfg_chunk_size config_data) (cfg_chunk_overlap config_data) with
      | Raise e =>
        (Uncaught e, {| disk_now := fs; notices := told; cache_cleared := cache_cleared s |})
      | Ok [] =>
        (Next tt,
         {| disk_now := fs;
            notices := told ++ [st_warning "No documents were loaded or processed for ingestion."];
            cache_cleared := cache_cleared s |})
      | Ok all_documents =>
        match create_and_save_vector_store all_documents
                (cfg_embedding_model_name config_data) (cfg_embedding_model_kwargs config_data)
                (cfg_vector_store_path config_data) fs with
        | (Raise e, fs') =>
          (Uncaught e, {| disk_now := fs'; notices := told; cache_cleared := cache_cleared s |})
        | (Ok _, fs') =>
          (Rerun,
           {| disk_now := fs';
              notices := told ++ [st_success "Camos documentation successfully ingested into the FAISS knowledge base!"];
              cache_cleared := true |})
        end
      end
    end.
Proof.
  unfold ingest_camos_data_to_faiss.
  unfold mbind at 1, working_bind, announce. simpl.
  unfold mbind at 1, working_bind, on_the_disk. simpl.
  destruct (makedirs _ _) as [[[]|e] fs]; [|done].
  unfold mbind at 1, working_bind. simpl.
  destruct (load_and_process_camos_docs _ _ _ _) as [[|d ds]|e]; [done| |done].
  unfold mbind at 1, working_bind. simpl.
  unfold create_and_save_vector_store.
  unfold mbind, stateful_bind, pure_call, mret, stateful_ret.
  destruct (SentenceTransformerEmbeddings _ _) as [[]|e]; [|done].
  destruct (from_documents _ _) as [vectorstore|e]; [|done].
  by destruct (save_local vectorstore _ fs) as [[[]|e] fs'].
Qed.

(** X22. The button asks for a rerun only after an index was saved:
    then some chunk was produced, the vector store was built from the
    chunks and saved where the settings say, the success box is the
    last one shown and the cached pipeline was dropped, so that the
    next run constructs it anew from the saved index. *)
Theorem ingest_rerun_means_saved rag_pipeline config_data s s' :
  ingest_camos_data_to_faiss makedirs rag_pipeline config_data s = (Rerun, s') →
  ∃ fs all_documents vectorstore,
    makedirs (cfg_vector_store_path config_data) (disk_now s) = (Ok tt, fs)
    ∧ load_and_process_camos_docs fs (cfg_pdf_data_dir config_data)
        (cfg_chunk_size config_data) (cfg_chunk_overlap config_data) = Ok all_documents
    ∧ all_documents ≠ []
    ∧ create_and_save_vector_store all_documents
        (cfg_embedding_model_name config_data) (cfg_embedding_model_kwargs config_data)
        (cfg_vector_store_path config_data) fs
      = (Ok (Some vectorstore), disk_now s')
    ∧ cache_cleared s' = true
    ∧ last (notices s')
      = Some (st_success "Camos documentation successfully ingested into the FAISS knowledge base!").
Proof.
  destruct rag_pipeline as [self|]; [|done].
  rewrite ingest_camos_data_to_faiss_unfold. simpl.
  destruct (makedirs _ _) as [[[]|e] fs]; [|done].
  destruct (load_and_process_camos_docs _ _ _ _) as [[|d ds]|e] eqn:Hdocs; [done| |done].
  destruct (create_and_save_vector_store _ _ _ _ _) as [[vectorstore|e] fs'] eqn:Hsave; [|done].
  intros [= <-]. simpl.
  assert (∃ vs, vectorstore = Some vs) as [vs ->].
  { revert Hsave. unfold create_and_save_vector_store.
    unfold mbind, stateful_bind, pure_call, mret, stateful_ret.
    repeat match goal with
           | |- context [match ?x with _ => _ end] => destruct x; try done
           end.
    intros [= <- _]. eauto. }
  exists fs, (d :: ds), vs. split_and!; try done. by rewrite last_snoc.
Qed.

(** X23. When the ingestion gives no chunk, for instance because the
    source directory holds no PDF file, the button warns and stops:
    nothing is embedded or saved, the disk is as [os.makedirs] left
    it, so an index saved earlier stays, and the cached pipeline is
    kept. *)
Theorem ingest_without_chunks_keeps_index self config_data s fs :
  makedirs (cfg_vector_store_path config_data) (disk_now s) = (Ok tt, fs) →
  load_and_process_camos_docs fs (cfg_pdf_data_dir config_data)
    (cfg_chunk_size config_data) (cfg_chunk_overlap config_data) = Ok [] →
  ingest_camos_data_to_faiss makedirs (Some self) config_data s
  = (Next tt,
     {| disk_now := fs;
        notices := notices s ++ [st_info "Starting Camos data ingestion into FAISS...";
                                 st_warning "No documents were loaded or processed for ingestion."];
        cache_cleared := cache_cleared s |}).
Proof.
  intros Hmakedirs Hdocs. rewrite ingest_camos_data_to_faiss_unfold. simpl.
  rewrite Hmakedirs, Hdocs. by rewrite <-app_assoc.
Qed.

(** X24. The box "Failed to create/save vector store." is never shown:
    a failure to build or save the index is an exception, which leaves
    the function, and the function has returned before when there was
    no chunk.  Whatever the outcome, the boxes added are among the four
    others. *)
Theorem ingest_never_reports_failure rag_pipeline config_data s :
  ∃ added,
    notices (ingest_camos_data_to_faiss makedirs rag_pipeline config_data s).2
    = notices s ++ added
    ∧ (st_error "Failed to create/save vector store." ∉ added)
    ∧ Forall (λ box,
        box ∈ [st_error "RAG Pipeline not initialized. Cannot ingest data.";
               st_info "Starting Camos data ingestion into FAISS...";
               st_warning "No documents were loaded or processed for ingestion.";
               st_success "Camos documentation successfully ingested into the FAISS knowledge base!"])
        added.
Proof.
  assert (∀ added,
    (added = [st_error "RAG Pipeline not initialized. Cannot ingest data."]
     ∨ added = [st_info "Starting Camos data ingestion into FAISS..."]
     ∨ added = [st_info "Starting Camos data ingestion into FAISS...";
                st_warning "No documents were loaded or processed for ingestion."]
     ∨ added = [st_info "Starting Camos data ingestion into FAISS...";
                st_success "Camos documentation successfully ingested into the FAISS knowledge base!"]) →
    (st_error "Failed to create/save vector store." ∉ added)
    ∧ Forall (λ box,
        box ∈ [st_error "RAG Pipeline not initialized. Cannot ingest data.";
               st_info "Starting Camos data ingestion into FAISS...";
               st_warning "No documents were loaded or processed for ingestion.";
               st_success "Camos documentation successfully ingested into the FAISS knowledge base!"])
        added) as Hboxes.
  { intros added [->|[->|[->| ->]]]; split;
      rewrite ?not_elem_of_cons, ?Forall_cons, ?elem_of_cons;
      repeat split; try done; try apply not_elem_of_nil; try apply Forall_nil; tauto. }
  destruct rag_pipeline as [self|].
  - rewrite ingest_camos_data_to_faiss_unfold. cbv zeta.
    destruct (makedirs _ _) as [[[]|e] fs]; [|eexists; split; [reflexivity|]; apply Hboxes; tauto].
    destruct (load_and_process_camos_docs _ _ _ _) as [[|d ds]|e].
    + eexists. split; [simpl; by rewrite <-app_assoc|]. apply Hboxes. tauto.
    + destruct (create_and_save_vector_store (d :: ds) _ _ _ _) as [[vectorstore|e] fs'].
      * eexists. split; [simpl; by rewrite <-app_assoc|]. apply Hboxes. tauto.
      * eexists. split; [reflexivity|]. apply Hboxes. tauto.
    + eexists. split; [reflexivity|]. apply Hboxes. tauto.
  - eexists. split; [reflexivity|]. apply Hboxes. tauto.
Qed.

(** X25. A missing source directory is not reported in a box: the
    exception of [os.listdir] leaves the button's function, after the
    index directory has been created and before anything is embedded. *)
Theorem ingest_missing_source_directory self config_data s fs :
  makedirs (cfg_vector_store_path config_data) (disk_now s) = (Ok tt, fs) →
  RecursiveCharacterTextSplitter (cfg_chunk_size config_data) (cfg_chunk_overlap config_data) = Ok tt →
  fs !! cfg_pdf_data_dir config_data = None →
  ingest_camos_data_to_faiss makedirs (Some self) config_data s
  = (Uncaught (Exn "FileNotFoundError"
                 ("[Errno 2] No such file or directory: '" +:+ cfg_pdf_data_dir config_data +:+ "'")),
     {| disk_now := fs;
        notices := notices s ++ [st_info "Starting Camos data ingestion into FAISS..."];
        cache_cleared := cache_cleared s |}).
Proof.
  intros Hmakedirs Hsplitter Hdir. rewrite ingest_camos_data_to_faiss_unfold. simpl.
  rewrite Hmakedirs. unfold load_and_process_camos_docs.
  rewrite Hsplitter. simpl. unfold listdir. by rewrite Hdir.
Qed.

End ingestion_button_facts.

(** ** The question board, continued *)
Section more_question_board.

(** X26. The forms test the text as typed, and store it stripped: an
    answer made of white space only passes the test, so the question
    leaves the pending file and enters the FAQ file with an empty
    answer. *)
Theorem blank_answer_is_stored r rows index q b answer name faqs :
  submitted r = submit_answer ("answer_form_" +:+ pending_id q) answer →
  answer ≠ "" →
  Forall (λ c, isspace c = true) (chars answer) →
  user_data r !! "name" = Some name →
  "answer_form_" +:+ pending_id q ∉ forms b →
  stored (faq_xlsx b) = Some faqs →
  write_error (faq_xlsx b) = None →
  write_error (pending_xlsx b) = None →
  ∃ b',
    answer_form r rows index q b = (Rerun, b')
    ∧ stored (faq_xlsx b')
      = Some ({| faq_id := pending_id q; faq_question := pending_question q;
                 faq_answer := ""; faq_timestamp := now r; faq_created_by := name |} :: faqs)
    ∧ stored (pending_xlsx b') = Some (delete index rows).
Proof.
  intros Hsub Hanswer Hblank Hname Hfresh Hfaqs Hwf Hwp.
  rewrite (answer_form_submitted _ _ _ _ _ answer name faqs) by done.
  rewrite (strip_blank _ Hblank). by eexists.
Qed.

(** X27. A FAQ file that cannot be read counts as empty, with a
    warning; the answer submitted next is then written over it, so the
    file holds that one entry and whatever it held before is gone. *)
Theorem unreadable_faq_file_is_replaced r rows index q b answer name e :
  submitted r = submit_answer ("answer_form_" +:+ pending_id q) answer →
  answer ≠ "" →
  user_data r !! "name" = Some name →
  "answer_form_" +:+ pending_id q ∉ forms b →
  content (faq_xlsx b) = unreadable e →
  write_error (faq_xlsx b) = None →
  write_error (pending_xlsx b) = None →
  ∃ b',
    answer_form r rows index q b = (Rerun, b')
    ∧ content (faq_xlsx b')
      = sheet [{| faq_id := pending_id q; faq_question := pending_question q;
                  faq_answer := strip answer; faq_timestamp := now r; faq_created_by := name |}]
    ∧ content (pending_xlsx b') = sheet (delete index rows)
    ∧ screen b'
      = screen b ++ [st_warning ("Error loading data/faqs.xlsx: " +:+ exc_str e
                                 +:+ ". Creating a new empty DataFrame.");
                     st_success "Answer submitted and added to FAQs!"].
Proof.
  intros Hsub Hanswer Hname Hfresh Hcontent Hwf Hwp.
  unfold answer_form, mbind, script_bind, st_form.
  rewrite (bool_decide_eq_false_2 _ Hfresh), Hsub.
  rewrite bool_decide_eq_true_2 by done.
  rewrite (truthy_nonempty _ Hanswer). simpl.
  unfold load_data_from_excel. simpl. rewrite Hcontent. simpl.
  unfold uncaught. rewrite (getitem_Some _ _ _ Hname).
  unfold save_data_to_excel. simpl. rewrite Hwf. simpl. rewrite Hwp. simpl.
  eexists. split; [reflexivity|]. simpl. split_and!; try done.
  by rewrite <-app_assoc.
Qed.

Lemma answer_form_idle r rows index q b :
  submitted r = no_submission →
  faq_xlsx (answer_form r rows index q b).2 = faq_xlsx b
  ∧ pending_xlsx (answer_form r rows index q b).2 = pending_xlsx b.
Proof.
  intros Hsub. unfold answer_form, mbind, script_bind, st_form.
  rewrite Hsub. by destruct (bool_decide _).
Qed.

Lemma for_iterrows_same_files {row} (body : nat → row → script unit) :
  (∀ index x b, faq_xlsx (body index x b).2 = faq_xlsx b
                ∧ pending_xlsx (body index x b).2 = pending_xlsx b) →
  ∀ df start b,
    faq_xlsx (for_iterrows start df body b).2 = faq_xlsx b
    ∧ pending_xlsx (for_iterrows start df body b).2 = pending_xlsx b.
Proof.
  intros Hbody df. induction df as [|x df IH]; intros start b; [done|].
  simpl. unfold mbind, script_bind.
  destruct (Hbody start x b) as [Hfaq Hpending].
  destruct (body start x b) as [[[]| |e] b1]; simpl in Hfaq, Hpending; try done.
  rewrite <-Hfaq, <-Hpending. apply IH.
Qed.

Lemma pending_questions_idle r b :
  submitted r = no_submission →
  faq_xlsx (pending_questions r b).2 = faq_xlsx b
  ∧ pending_xlsx (pending_questions r b).2 = pending_xlsx b.
Proof.
  intros Hsub. unfold pending_questions.
  destruct (load_data_from_excel_pending b) as (df & b' & Hload & Hfaq & Hpending & _).
  unfold mbind at 1 3, script_bind. rewrite Hload, <-Hfaq, <-Hpending.
  destruct df as [|q df]; [done|].
  apply for_iterrows_same_files. intros index pending_q b1.
  unfold mbind, script_bind, show. simpl.
  destruct (CAN_ANSWER_QUESTION (user_data r)); [|done].
  match goal with
  | |- context [answer_form r ?rows index pending_q ?b2] =>
    apply (answer_form_idle r rows index pending_q b2 Hsub)
  end.
Qed.

(** X28. Looking at the third tab changes no file: a run in which no
    form was submitted leaves the FAQ file and the pending file as they
    were, for every user, whatever the files hold and however the run
    ends. *)
Theorem viewing_changes_no_file r b :
  submitted r = no_submission →
  faq_xlsx (tab3 r b).2 = faq_xlsx b
  ∧ pending_xlsx (tab3 r b).2 = pending_xlsx b.
Proof.
  intros Hsub.
  assert (∀ text, submitted r ≠ submit_question text) as Hno by (intros text; by rewrite Hsub).
  destruct (ask_question_same_files r b Hno) as (Hfaq & Hpending & _).
  unfold tab3, mbind, script_bind.
  destruct (ask_question r b) as [[[]| |e] b1]; simpl in Hfaq, Hpending; try done.
  rewrite <-Hfaq, <-Hpending. by apply pending_questions_idle.
Qed.

End more_question_board.


Lemma additional_records_source_is_entry_name_witness :
  join "docs" "guide.pdf" = "docs/guide.pdf"
  ∧ Forall (λ d, metadata d !! "source" = Some (VStr "guide.pdf"))
      [{| page_content := "Image content from page 1:" +:+ newline +:+ "text of scan";
          metadata := {[ "source" := VStr "guide.pdf"; "page" := VInt 1;
                         "type" := VStr "image_ocr"; "image_index" := VInt 2 ]} |}].
Proof.
  split; [vm_compute; reflexivity|].
  apply (additional_records_source_is_entry_name (H:=Demo.libraries) "docs" "guide.pdf").
  - unfold chars. simpl. rewrite !not_elem_of_cons. split_and!; try discriminate. apply not_elem_of_nil.
  - vm_compute; reflexivity.
Defined.

Lemma table_failure_keeps_earlier_tables_witness :
  extract_additional_content_from_pdf (H:=Demo.second_libraries) "docs/tables.pdf"
  = Ok ((ocr_pages (H:=Demo.second_libraries) "tables.pdf" [Ok []]).1
        ++ (table_records "tables.pdf" [{| page := 1; df_to_markdown := Ok "| a | b |" |}]).1)
  ∧ length (table_records "tables.pdf" [{| page := 1; df_to_markdown := Ok "| a | b |" |}]).1
    = 1%nat.
Proof.
  apply (table_failure_keeps_earlier_tables (H:=Demo.second_libraries) "docs/tables.pdf"
           [Ok []] [{| page := 1; df_to_markdown := Ok "| a | b |" |}]
           {| page := 2;
              df_to_markdown := Raise (Exn "ImportError" "Missing optional dependency 'tabulate'.") |}
           [{| page := 3; df_to_markdown := Ok "| c | d |" |}]);
    try reflexivity.
  by repeat constructor.
Defined.

Lemma create_and_save_failure_leaves_disk_witness :
  ∃ e,
    create_and_save_vector_store (H:=Demo.second_libraries) [Demo.guide_page; Demo.blank_page]
      (VStr "sentence-transformers/all-MiniLM-L6-v2") (VObj "{'device': 'cpu'}")
      "data/faiss_index" Demo.indexed_disk
    = (Raise e, Demo.indexed_disk).
Proof.
  apply (create_and_save_failure_leaves_disk (H:=Demo.second_libraries)
           [Demo.guide_page; Demo.blank_page]).
  - right. apply Exists_cons_tl, Exists_cons_hd. reflexivity.
  - discriminate.
Defined.

Lemma init_requirements_witness :
  __init__ (H0:=Demo.services) Demo.model_config Demo.no_index
  = (Ok Demo.bare_pipeline, Demo.no_index)
  ∧ exists_ (disk Demo.no_index) "config/prompt_templates.yaml" = true
  ∧ yaml_safe_load (Services:=Demo.services) "config/prompt_templates.yaml" (disk Demo.no_index)
    = Ok (prompt_templates Demo.bare_pipeline)
  ∧ Demo.model_config !! "embedding_model_name" = Some (model_name (embeddings Demo.bare_pipeline))
  ∧ Demo.model_config !! "embedding_model_kwargs" = Some (model_kwargs (embeddings Demo.bare_pipeline))
  ∧ Demo.model_config !! "ollama_base_url" = Some (base_url (llm Demo.bare_pipeline))
  ∧ Demo.model_config !! "ollama_model_name" = Some (model (llm Demo.bare_pipeline))
  ∧ Demo.model_config !! "ollama_temperature" = Some (temperature (llm Demo.bare_pipeline))
  ∧ is_Some (Demo.model_config !! "vector_store_path").
Proof.
  split; [vm_compute; reflexivity|].
  apply (init_requirements (H0:=Demo.services) Demo.model_config Demo.no_index
           Demo.bare_pipeline Demo.no_index).
  vm_compute; reflexivity.
Defined.

Lemma init_chain_iff_index_witness :
  __init__ (H0:=Demo.services) Demo.model_config Demo.with_index
  = (Ok Demo.ready_pipeline, Demo.with_index)
  ∧ (is_Some (qa_chain Demo.ready_pipeline) ↔ is_Some (vectorstore Demo.ready_pipeline))
  ∧ k (chain_retriever Demo.stuff_chain) = 5%nat
  ∧ vectorstore Demo.ready_pipeline = Some (vectorstore_of (chain_retriever Demo.stuff_chain)).
Proof.
  split; [vm_compute; reflexivity|].
  destruct (init_chain_iff_index (H0:=Demo.services) Demo.model_config Demo.with_index
              Demo.ready_pipeline Demo.with_index) as [Hiff Hchain];
    [vm_compute; reflexivity|].
  split; [exact Hiff|].
  destruct (Hchain Demo.stuff_chain eq_refl) as (_ & _ & _ & _ & _ & Hk & Hindex).
  by split.
Defined.

Lemma chat_turn_appends_one_reply_witness :
  ∃ reply c',
    Shell.tab1 (H0:=Demo.services) (Some Demo.bare_pipeline) Demo.model_config
      (Some "How do I loop?") Demo.first_visit
    = (Ok tt, c')
    ∧ Shell.messages c'
      = Some (from_option id [Shell.greeting] (Shell.messages Demo.first_visit)
              ++ [{| Shell.role := "user"; Shell.message_content := VStr "How do I loop?" |};
                  {| Shell.role := "assistant"; Shell.message_content := reply |}])
    ∧ disk (Shell.outside c') = disk (Shell.outside Demo.first_visit).
Proof.
  apply (chat_turn_appends_one_reply (H0:=Demo.services) (Some Demo.bare_pipeline)
           Demo.model_config "How do I loop?" Demo.first_visit).
  discriminate.
Defined.

Lemma chat_debug_route_ignores_prompt_witness :
  ∃ reply c1 c2,
    Shell.tab1 (H0:=Demo.services) (Some Demo.bare_pipeline) Demo.model_config
      (Some "My CODE gives Error 42") Demo.first_visit
    = (Ok tt, c1)
    ∧ Shell.tab1 (H0:=Demo.services) (Some Demo.bare_pipeline) Demo.model_config
        (Some "error codes?") Demo.first_visit
      = (Ok tt, c2)
    ∧ Shell.messages c1
      = Some (from_option id [Shell.greeting] (Shell.messages Demo.first_visit)
              ++ [{| Shell.role := "user"; Shell.message_content := VStr "My CODE gives Error 42" |};
                  {| Shell.role := "assistant"; Shell.message_content := reply |}])
    ∧ Shell.messages c2
      = Some (from_option id [Shell.greeting] (Shell.messages Demo.first_visit)
              ++ [{| Shell.role := "user"; Shell.message_content := VStr "error codes?" |};
                  {| Shell.role := "assistant"; Shell.message_content := reply |}])
    ∧ Shell.outside c1 = Shell.outside c2
    ∧ Shell.outside c1
      = (debug_code (H0:=Demo.services) Demo.bare_pipeline
           "Please provide the code snippet you're working with."
           "Please provide the exact error message." (Shell.outside Demo.first_visit)).2.
Proof.
  apply (chat_debug_route_ignores_prompt (H0:=Demo.services) Demo.bare_pipeline
           Demo.model_config "My CODE gives Error 42" "error codes?" Demo.first_visit);
    vm_compute; reflexivity.
Defined.

Lemma chat_apologises_on_template_error_witness :
  Shell.tab1 (H0:=Demo.services) (Some Demo.no_templates) Demo.model_config
    (Some "My CODE gives Error 42") Demo.first_visit
  = (Ok tt,
     {| Shell.messages :=
          Some [Shell.greeting;
                {| Shell.role := "user"; Shell.message_content := VStr "My CODE gives Error 42" |};
                {| Shell.role := "assistant";
                   Shell.message_content := VStr "I apologize, an error occurred while processing your request. Please try again or check the server status." |}];
        Shell.boxes :=
          [st_error "An error occurred during AI processing: 'NoneType' object is not subscriptable. Please check the console for more details and ensure Ollama server is running with the model 'mistral'. Also, ensure the FAISS index is built."];
        Shell.outside := Demo.no_index |}).
Proof.
  apply (chat_apologises_on_template_error (H0:=Demo.services) Demo.no_templates
           Demo.model_config "My CODE gives Error 42" Demo.first_visit
           (Exn "TypeError" "'NoneType' object is not subscriptable"));
    vm_compute; reflexivity.
Defined.

Lemma chat_question_route_witness :
  __init__ (H0:=Demo.services) Demo.model_config Demo.with_index
  = (Ok Demo.ready_pipeline, Demo.with_index)
  ∧ ∃ answer,
      (query_rag (H0:=Demo.services) Demo.ready_pipeline "What is CASE?"
         (Shell.outside Demo.first_visit)).1 = Ok answer
      ∧ Shell.tab1 (H0:=Demo.services) (Some Demo.ready_pipeline) Demo.model_config
          (Some "What is CASE?") Demo.first_visit
        = (Ok tt,
           {| Shell.messages :=
                Some (from_option id [Shell.greeting] (Shell.messages Demo.first_visit)
                      ++ [{| Shell.role := "user"; Shell.message_content := VStr "What is CASE?" |};
                          {| Shell.role := "assistant"; Shell.message_content := answer |}]);
              Shell.boxes := Shell.boxes Demo.first_visit;
              Shell.outside :=
                (query_rag (H0:=Demo.services) Demo.ready_pipeline "What is CASE?"
                   (Shell.outside Demo.first_visit)).2 |}).
Proof.
  split; [vm_compute; reflexivity|].
  apply (chat_question_route (H0:=Demo.services) Demo.model_config Demo.with_index
           Demo.ready_pipeline Demo.with_index Demo.model_config "What is CASE?" Demo.first_visit).
  - vm_compute; reflexivity.
  - discriminate.
  - vm_compute; reflexivity.
Defined.

Lemma sidebar_ready_without_index_witness :
  Shell.initialize_rag_pipeline_cached (H0:=Demo.services) Demo.model_config Demo.no_index
  = (Some Demo.bare_pipeline, [], Demo.no_index)
  ∧ Shell.sidebar_status (Some Demo.bare_pipeline) Demo.model_config
    = st_success "AI is ready! Ollama connected."
  ∧ query_rag (H0:=Demo.services) Demo.bare_pipeline "What is CASE?" Demo.no_index
    = (Ok (VStr "RAG system not ready. Please ensure data has been ingested."), Demo.no_index).
Proof.
  split; [vm_compute; reflexivity|].
  destruct (sidebar_ready_without_index (H0:=Demo.services) Demo.model_config Demo.no_index
              "data/faiss_index" Demo.bare_pipeline [] Demo.no_index)
    as (Hstatus & _ & Hquery).
  - reflexivity.
  - right. reflexivity.
  - vm_compute; reflexivity.
  - split; [exact Hstatus|]. apply Hquery.
Defined.

Lemma missing_templates_file_degrades_witness :
  Shell.initialize_rag_pipeline_cached (H0:=Demo.services) Demo.model_config
    {| disk := ∅; calls := [] |}
  = (None,
     [st_error "Failed to initialize RAG Pipeline: Prompt templates file not found: config/prompt_templates.yaml. Please check Ollama server, model, and config."],
     {| disk := ∅; calls := [] |}).
Proof.
  exact (proj1 (missing_templates_file_degrades (H0:=Demo.services) Demo.model_config
                  {| disk := ∅; calls := [] |} eq_refl)).
Defined.

Lemma login_sets_the_account_witness :
  ∃ s',
    Shell.show_login_page Demo.bea_logs_in Demo.logged_out
    = (Rerun, s', [st_success "Welcome, Bea! You are now logged in."])
    ∧ Shell.logged_in s' = true
    ∧ Shell.account s' !! "name" = Some "Bea"
    ∧ Shell.account s' !! "email" = Some "bea@example.org"
    ∧ Shell.account s' !! "experience_level" = Some "3-5yr"
    ∧ CAN_ANSWER_QUESTION (Shell.account s') = true.
Proof.
  destruct (login_sets_the_account Demo.bea_logs_in Demo.logged_out eq_refl) as [_ Hlogin].
  destruct Hlogin as (s' & Hrun & Hin & Hname & Hemail & Hlevel & Hcan);
    [discriminate | discriminate |].
  exists s'. split_and!; try done.
Defined.

Lemma ingest_rerun_means_saved_witness :
  Shell.ingest_camos_data_to_faiss (H:=Demo.libraries) Demo.makedirs (Some Demo.bare_pipeline)
    Demo.docs_settings Demo.before_ingestion
  = (Rerun,
     {| Shell.disk_now := Demo.indexed_disk;
        Shell.notices := [st_info "Starting Camos data ingestion into FAISS...";
                          st_success "Camos documentation successfully ingested into the FAISS knowledge base!"];
        Shell.cache_cleared := true |})
  ∧ ∃ fs all_documents vectorstore,
      Demo.makedirs "data/faiss_index" Demo.fresh_disk = (Ok tt, fs)
      ∧ load_and_process_camos_docs (H:=Demo.libraries) fs "docs" 500 50 = Ok all_documents
      ∧ all_documents ≠ []
      ∧ create_and_save_vector_store (H:=Demo.libraries) all_documents
          (VStr "sentence-transformers/all-MiniLM-L6-v2") (VObj "{'device': 'cpu'}")
          "data/faiss_index" fs
        = (Ok (Some vectorstore), Demo.indexed_disk).
Proof.
  assert (Shell.ingest_camos_data_to_faiss (H:=Demo.libraries) Demo.makedirs
            (Some Demo.bare_pipeline) Demo.docs_settings Demo.before_ingestion
          = (Rerun,
             {| Shell.disk_now := Demo.indexed_disk;
                Shell.notices := [st_info "Starting Camos data ingestion into FAISS...";
                                  st_success "Camos documentation successfully ingested into the FAISS knowledge base!"];
                Shell.cache_cleared := true |})) as Hrun by (vm_compute; reflexivity).
  split; [exact Hrun|].
  destruct (ingest_rerun_means_saved (H:=Demo.libraries) Demo.makedirs _ _ _ _ Hrun)
    as (fs & all_documents & vectorstore & Hmakedirs & Hdocs & Hne & Hsave & _).
  by exists fs, all_documents, vectorstore.
Defined.

Lemma ingest_without_chunks_keeps_index_witness :
  Shell.ingest_camos_data_to_faiss (H:=Demo.libraries) Demo.makedirs (Some Demo.ready_pipeline)
    Demo.docs_settings
    {| Shell.disk_now := {[ "docs" := Dir ["readme.txt"];
                            "data/faiss_index" := Dir ["index.faiss"; "index.pkl"] ]};
       Shell.notices := []; Shell.cache_cleared := false |}
  = (Next tt,
     {| Shell.disk_now := {[ "docs" := Dir ["readme.txt"];
                             "data/faiss_index" := Dir ["index.faiss"; "index.pkl"] ]};
        Shell.notices := [st_info "Starting Camos data ingestion into FAISS...";
                          st_warning "No documents were loaded or processed for ingestion."];
        Shell.cache_cleared := false |}).
Proof.
  apply (ingest_without_chunks_keeps_index (H:=Demo.libraries) Demo.makedirs Demo.ready_pipeline
           Demo.docs_settings
           {| Shell.disk_now := {[ "docs" := Dir ["readme.txt"];
                                   "data/faiss_index" := Dir ["index.faiss"; "index.pkl"] ]};
              Shell.notices := []; Shell.cache_cleared := false |});
    vm_compute; reflexivity.
Defined.

Lemma ingest_missing_source_directory_witness :
  Shell.ingestion_settings_of Demo.model_config = Some Demo.default_settings
  ∧ Shell.ingest_camos_data_to_faiss (H:=Demo.libraries) Demo.makedirs (Some Demo.bare_pipeline)
      Demo.default_settings Demo.before_ingestion
    = (Uncaught (Exn "FileNotFoundError" "[Errno 2] No such file or directory: 'data/raw_pdfs'"),
       {| Shell.disk_now := Demo.fresh_disk;
          Shell.notices := [st_info "Starting Camos data ingestion into FAISS..."];
          Shell.cache_cleared := false |}).
Proof.
  split; [vm_compute; reflexivity|].
  apply (ingest_missing_source_directory (H:=Demo.libraries) Demo.makedirs Demo.bare_pipeline
           Demo.default_settings Demo.before_ingestion Demo.fresh_disk);
    vm_compute; reflexivity.
Defined.

Lemma blank_answer_is_stored_witness :
  ∃ b',
    answer_form Demo.senior_answers_blank Demo.asked 1
      {| pending_id := "1800"; pending_question := "What is CASE?";
         pending_timestamp := 1800; pending_asked_by := "Al" |} Demo.start
    = (Rerun, b')
    ∧ stored (faq_xlsx b')
      = Some ({| faq_id := "1800"; faq_question := "What is CASE?"; faq_answer := "";
                 faq_timestamp := 1900; faq_created_by := "Bea" |} :: Demo.answered)
    ∧ stored (pending_xlsx b') = Some (delete 1 Demo.asked).
Proof.
  apply (blank_answer_is_stored Demo.senior_answers_blank Demo.asked 1
           {| pending_id := "1800"; pending_question := "What is CASE?";
              pending_timestamp := 1800; pending_asked_by := "Al" |}
           Demo.start "  " "Bea" Demo.answered); try reflexivity.
  - discriminate.
  - by repeat constructor.
  - by vm_compute; intros ?%elem_of_nil.
Defined.

Lemma unreadable_faq_file_is_replaced_witness :
  ∃ b',
    answer_form Demo.senior_answers Demo.asked 1
      {| pending_id := "1800"; pending_question := "What is CASE?";
         pending_timestamp := 1800; pending_asked_by := "Al" |} Demo.damaged_faqs
    = (Rerun, b')
    ∧ content (faq_xlsx b')
      = sheet [{| faq_id := "1800"; faq_question := "What is CASE?";
                  faq_answer := strip "Use CASE x OF"; faq_timestamp := 1900;
                  faq_created_by := "Bea" |}]
    ∧ content (pending_xlsx b') = sheet (delete 1 Demo.asked)
    ∧ screen b'
      = screen Demo.damaged_faqs
        ++ [st_warning ("Error loading data/faqs.xlsx: " +:+ "File is not a zip file"
                        +:+ ". Creating a new empty DataFrame.");
            st_success "Answer submitted and added to FAQs!"].
Proof.
  apply (unreadable_faq_file_is_replaced Demo.senior_answers Demo.asked 1
           {| pending_id := "1800"; pending_question := "What is CASE?";
              pending_timestamp := 1800; pending_asked_by := "Al" |}
           Demo.damaged_faqs "Use CASE x OF" "Bea" (Exn "BadZipFile" "File is not a zip file"));
    try reflexivity.
  - discriminate.
  - by vm_compute; intros ?%elem_of_nil.
Defined.

Lemma viewing_changes_no_file_witness :
  faq_xlsx (tab3 Demo.senior_looks Demo.start).2 = faq_xlsx Demo.start
  ∧ pending_xlsx (tab3 Demo.senior_looks Demo.start).2 = pending_xlsx Demo.start.
Proof.
  exact (viewing_changes_no_file Demo.senior_looks Demo.start eq_refl).
Defined.
